(** * instagram-cli: session manager and retry-wrapped gateway

    A shallow embedding of [instagram_cli/auth.py] and
    [instagram_cli/client.py].  Python code that reads and writes the
    outside world (the filesystem, the console, the clock, the instagrapi
    library and the remote service behind it) is embedded in a state and
    exception monad over a [World]; an exception leaves the effects that
    happened before it in place, as in Python. *)

From Stdlib Require Import ZArith String Ascii List Bool Lia.
From stdpp Require Import base gmap strings list pretty.
Import ListNotations.
#[local] Set Warnings "-register-all".
#[local] Open Scope Z_scope.

(** ** Exceptions and results *)

(** The exception classes the code raises, catches or can meet.  The
    [except] clauses of the source name [RateLimitError], [LoginRequired],
    [BadPassword], [TwoFactorRequired], [ChallengeRequired] and
    [Exception]; every class below is a subclass of [Exception]. *)
Inductive exn_class :=
| RateLimitError | LoginRequired | BadPassword | TwoFactorRequired
| ChallengeRequired | ClientError
| OSError | FileNotFoundError | FileExistsError | IsADirectoryError
| NotADirectoryError | PermissionError | JSONDecodeError
| TypeError | AttributeError | KeyError | RuntimeError.

#[global] Instance exn_class_eq_dec : EqDecision exn_class.
Proof. solve_decision. Defined.

(** An exception object: its class and [str(e)]. *)
Record exn := Exn { exn_cls : exn_class; exn_msg : string }.

#[global] Instance exn_eq_dec : EqDecision exn.
Proof. solve_decision. Defined.

(** [isinstance(e, cls)] for the flat part of the hierarchy used here. *)
Definition isinstance (e : exn) (c : exn_class) : bool :=
  bool_decide (exn_cls e = c).

Inductive outcome (A : Type) :=
| Return (a : A)
| Raise (e : exn).
Arguments Return {A} a.
Arguments Raise {A} e.

(** ** Observable effects *)

(** An absolute path: its components from the root. *)
Abbreviation path := (list string) (only parsing).

Inductive fsop := OpMkdir | OpRead | OpWrite | OpChmod | OpUnlink.

(** What a run does to the outside, in the order it happens:
    console lines ([utils.info_message], [error_message],
    [success_message]), [time.sleep], one entry per invocation of a
    remote capability of the library, and one per filesystem call. *)
Inductive event :=
| Info (s : string)
| Error (s : string)
| Success (s : string)
| Sleep (d : Z)
| RemoteCall (name : string)
| Syscall (op : fsop) (p : path).

#[global] Instance fsop_eq_dec : EqDecision fsop.
Proof. solve_decision. Defined.

#[global] Instance event_eq_dec : EqDecision event.
Proof. solve_decision. Defined.


(** The delays slept, in order. *)
Definition sleeps (t : list event) : list Z :=
  omap (fun e => match e with Sleep d => Some d | _ => None end) t.

(** The remote capabilities invoked, in order. *)
Definition remote_calls (t : list event) : list string :=
  omap (fun e => match e with RemoteCall n => Some n | _ => None end) t.

(** ** The filesystem

    External collaborator ([pathlib], [open], the operating system).  A
    node is a directory or a regular file with its content and permission
    bits; the root [[]] is always a directory.  [denied] is the operating
    system's refusal of an operation on a path (permission denied, disk
    full, read-only medium): a refused operation raises the given error
    and changes nothing. *)
Inductive node :=
| Dir
| File (content : string) (mode : Z).

Record FileSys := mkFS {
  nodes : gmap path node;
  denied : fsop -> path -> option exn;
}.

Definition stat (f : FileSys) (p : path) : option node :=
  match p with
  | [] => Some Dir
  | _ => nodes f !! p
  end.

(** [Path.parent] *)
Definition parent (p : path) : path := removelast p.

(** [str(path)] of an absolute path *)
Definition path_str (p : path) : string :=
  match p with
  | [] => "/"
  | _ => String.concat "" (map (fun c => "/" +:+ c) p)
  end.

(** Mode given to a newly created file: [0o666] masked by the usual
    umask [0o022], that is [0o644]. *)
Definition default_file_mode : Z := 420.

(** [0o600]: read and write for the owner only. *)
Definition mode_0o600 : Z := 384.

(** The proper prefixes of [p] and [p] itself, shortest first. *)
Definition ancestors_and_self (p : path) : list path :=
  map (fun n => take n p) (seq 1 (length p)).

(** [os.mkdir] along a chain of paths with [exist_ok=True]: an existing
    directory is kept, a missing one is created, a regular file in the
    way is an error. *)
Fixpoint mkdir_chain (target : path) (ps : list path) (m : gmap path node)
  : outcome (gmap path node) :=
  match ps with
  | [] => Return m
  | q :: rest =>
      match m !! q with
      | Some Dir => mkdir_chain target rest m
      | Some (File _ _) =>
          Raise (Exn (if bool_decide (q = target) then FileExistsError
                      else NotADirectoryError) (path_str q))
      | None => mkdir_chain target rest (<[q := Dir]> m)
      end
  end.

(** [p.mkdir(parents=True, exist_ok=True)] *)
Definition fs_mkdir_p (p : path) (f : FileSys) : outcome unit * FileSys :=
  match denied f OpMkdir p with
  | Some e => (Raise e, f)
  | None =>
      match mkdir_chain p (ancestors_and_self p) (nodes f) with
      | Return m => (Return tt, mkFS m (denied f))
      | Raise e => (Raise e, f)
      end
  end.

(** [open(p, "w")] followed by a write of the whole content.  An existing
    file keeps its permission bits. *)
Definition fs_write (p : path) (c : string) (f : FileSys)
  : outcome unit * FileSys :=
  match denied f OpWrite p with
  | Some e => (Raise e, f)
  | None =>
      match stat f (parent p) with
      | Some Dir =>
          match stat f p with
          | Some Dir => (Raise (Exn IsADirectoryError (path_str p)), f)
          | Some (File _ m) =>
              (Return tt, mkFS (<[p := File c m]> (nodes f)) (denied f))
          | None =>
              (Return tt,
               mkFS (<[p := File c default_file_mode]> (nodes f)) (denied f))
          end
      | Some (File _ _) => (Raise (Exn NotADirectoryError (path_str p)), f)
      | None => (Raise (Exn FileNotFoundError (path_str p)), f)
      end
  end.

(** [open(p)] followed by a read of the whole content *)
Definition fs_read (p : path) (f : FileSys) : outcome string :=
  match denied f OpRead p with
  | Some e => Raise e
  | None =>
      match stat f p with
      | Some (File c _) => Return c
      | Some Dir => Raise (Exn IsADirectoryError (path_str p))
      | None => Raise (Exn FileNotFoundError (path_str p))
      end
  end.

(** [p.chmod(mode)]; directories carry no permission bits in this model *)
Definition fs_chmod (p : path) (m : Z) (f : FileSys)
  : outcome unit * FileSys :=
  match denied f OpChmod p with
  | Some e => (Raise e, f)
  | None =>
      match stat f p with
      | Some (File c _) =>
          (Return tt, mkFS (<[p := File c m]> (nodes f)) (denied f))
      | Some Dir => (Return tt, f)
      | None => (Raise (Exn FileNotFoundError (path_str p)), f)
      end
  end.

(** [p.unlink()] *)
Definition fs_unlink (p : path) (f : FileSys) : outcome unit * FileSys :=
  match denied f OpUnlink p with
  | Some e => (Raise e, f)
  | None =>
      match stat f p with
      | Some (File _ _) =>
          (Return tt, mkFS (delete p (nodes f)) (denied f))
      | Some Dir => (Raise (Exn IsADirectoryError (path_str p)), f)
      | None => (Raise (Exn FileNotFoundError (path_str p)), f)
      end
  end.

(** [p.exists()] *)
Definition fs_exists (p : path) (f : FileSys) : bool :=
  match stat f p with Some _ => true | None => false end.

(** ** Python values

    The timeline feed is parsed JSON; the code inspects it with [in],
    [get], indexing and slicing, all of which depend on the dynamic type
    of the value. *)
Inductive pyval :=
| PNone
| PBool (b : bool)
| PInt (z : Z)
| PStr (s : string)
| PList (l : list pyval)
| PDict (d : gmap string pyval).

(** ** Paths as the program writes them

    [pathlib.Path(s)] on a POSIX system: whether the text starts at the
    root, and its components, with empty and ["."] components dropped. *)
Record PyPath := mkPath { is_abs : bool; parts : list string }.

(** [s.split("/")] *)
Fixpoint split_slash (s : string) : list string :=
  match s with
  | EmptyString => [EmptyString]
  | String c rest =>
      if Ascii.eqb c "/" then EmptyString :: split_slash rest
      else
        match split_slash rest with
        | [] => [String c EmptyString]
        | x :: xs => String c x :: xs
        end
  end.

Definition Path (s : string) : PyPath :=
  {| is_abs := String.prefix "/" s;
     parts := filter (fun c => c <> EmptyString /\ c <> ".") (split_slash s) |}.

(** [Path.name]: the last component, or the empty string *)
Definition name (p : PyPath) : string := List.last (parts p) EmptyString.

(** The characters after the last ["."] of [s], when there is one. *)
Fixpoint after_last_dot (s : string) : option string :=
  match s with
  | EmptyString => None
  | String c rest =>
      match after_last_dot rest with
      | Some e => Some e
      | None => if Ascii.eqb c "." then Some rest else None
      end
  end.

(** [Path.suffix]: with [i = name.rfind(".")], the text [name[i:]] when
    [0 < i < len(name) - 1], and the empty string otherwise. *)
Definition suffix (p : PyPath) : string :=
  match after_last_dot (name p) with
  | Some e =>
      if ((String.length e + 1 <? String.length (name p))%nat
          && (0 <? String.length e)%nat)%bool
      then "." +:+ e else EmptyString
  | None => EmptyString
  end.

(** [str.lower] on the ASCII letters; the bytes of other characters are
    kept, and no such character lowers to a letter of the accepted
    extensions. *)
Definition lower_ascii (c : ascii) : ascii :=
  let n := nat_of_ascii c in
  if ((65 <=? n) && (n <=? 90))%nat then ascii_of_nat (n + 32) else c.

Fixpoint lower (s : string) : string :=
  match s with
  | EmptyString => EmptyString
  | String c rest => String (lower_ascii c) (lower rest)
  end.

(** Resolution of the components of a path from a starting directory, as
    the operating system does it: every step needs a directory to step
    from, and [".."] steps to the parent. *)
Fixpoint walk (f : FileSys) (cur : path) (cs : list string) : option path :=
  match cs with
  | [] => Some cur
  | c :: rest =>
      match stat f cur with
      | Some Dir =>
          walk f (if bool_decide (c = "..") then removelast cur
                  else cur ++ [c]) rest
      | _ => None
      end
  end.

(** ** The instagrapi library

    External collaborator.  [Client] is the state of a client object
    (its settings); [Remote] is the state of the remote service and of
    the transport.  Every capability takes the client it is invoked on and
    the remote state, and ends normally or raises. *)

(** The attributes the code reads from a [User] object. *)
Record UserInfo := mkUserInfo {
  user_username : string;
  user_full_name : string;
  user_biography : string;
  user_follower_count : Z;
  user_following_count : Z;
  user_media_count : Z;
  user_is_private : bool;
  user_is_verified : bool;
  user_external_url : option string;
  user_profile_pic_url : string;
}.

(** The attribute the code reads from an uploaded [Media]. *)
Record Media := mkMedia { media_pk : string }.

Class Instagrapi := {
  Client : Type;
  Remote : Type;
  (** [Client()] *)
  Client_new : Client;
  (** the serialisation behind [dump_settings] and [load_settings];
      [None] is text that does not parse *)
  json_dumps : Client -> string;
  json_loads : string -> option Client;
  (** the [user_id] property *)
  client_user_id : Client -> option Z;
  (** [client.login(username, password)]: updates the client in place,
      also when it raises *)
  lib_login : string -> string -> Client -> Remote ->
              outcome unit * Client * Remote;
  lib_account_info : Client -> Remote -> outcome unit * Remote;
  lib_get_timeline_feed : Client -> Remote ->
                          outcome (gmap string pyval) * Remote;
  lib_user_id_from_username : Client -> string -> Remote ->
                              outcome Z * Remote;
  lib_user_info : Client -> option Z -> Remote -> outcome UserInfo * Remote;
  lib_search_users : Client -> string -> Remote ->
                     outcome (list UserInfo) * Remote;
  lib_photo_upload : Client -> PyPath -> string -> Remote ->
                     outcome Media * Remote;
}.

(** ** The world and the monad *)

Section Program.

Context {L : Instagrapi}.

(** [SessionManager.session_file], fixed by [__init__] from the
    environment ([utils.get_session_file_path]). *)
Variable session_file : path.

Record World := mkWorld {
  fs : FileSys;
  remote : Remote;
  trace : list event;
  (** [SessionManager.client] *)
  sm_client : option Client;
  (** [InstaClient._client] *)
  ic_client : option Client;
}.

Definition M (A : Type) : Type := World -> outcome A * World.

Definition ret {A} (a : A) : M A := fun w => (Return a, w).

Definition raise {A} (e : exn) : M A := fun w => (Raise e, w).

Definition bind {A B} (c : M A) (k : A -> M B) : M B :=
  fun w =>
    match c w with
    | (Return a, w') => k a w'
    | (Raise e, w') => (Raise e, w')
    end.

(** [try: c  except Exception as e: h e] *)
Definition try_except {A} (c : M A) (h : exn -> M A) : M A :=
  fun w =>
    match c w with
    | (Return a, w') => (Return a, w')
    | (Raise e, w') => h e w'
    end.

(** Runs [c] and hands its result over as a value. *)
Definition attempt {A} (c : M A) : M (outcome A) :=
  fun w => let (r, w') := c w in (Return r, w').

Notation "x <- c ;; k" := (bind c (fun x => k))
  (at level 100, c at next level, k at level 200, right associativity).
Notation "c ;; k" := (bind c (fun _ => k))
  (at level 100, k at level 200, right associativity).

Definition emit (e : event) : M unit :=
  fun w => (Return tt,
            mkWorld (fs w) (remote w) (trace w ++ [e])
                    (sm_client w) (ic_client w)).

Definition info_message (s : string) : M unit := emit (Info s).
Definition error_message (s : string) : M unit := emit (Error s).
Definition success_message (s : string) : M unit := emit (Success s).

(** [time.sleep(d)] *)
Definition sleep (d : Z) : M unit := emit (Sleep d).

(** One invocation of a remote capability. *)
Definition remote_call {A} (name : string)
  (f : Remote -> outcome A * Remote) : M A :=
  fun w =>
    let (r, s) := f (remote w) in
    (r, mkWorld (fs w) s (trace w ++ [RemoteCall name])
                (sm_client w) (ic_client w)).

(** One filesystem call. *)
Definition syscall {A} (op : fsop) (p : path)
  (f : FileSys -> outcome A * FileSys) : M A :=
  fun w =>
    let (r, f') := f (fs w) in
    (r, mkWorld f' (remote w) (trace w ++ [Syscall op p])
                (sm_client w) (ic_client w)).

Definition path_exists (p : path) : M bool :=
  fun w => (Return (fs_exists p (fs w)), w).

Definition set_sm_client (c : Client) : M unit :=
  fun w => (Return tt,
            mkWorld (fs w) (remote w) (trace w) (Some c) (ic_client w)).

Definition set_ic_client (c : Client) : M unit :=
  fun w => (Return tt,
            mkWorld (fs w) (remote w) (trace w) (sm_client w) (Some c)).

(** *** Library calls on a client object *)

(** [client.load_settings(p)]: reads and parses the file; the client's
    state becomes what was read. *)
Definition load_settings (p : path) : M Client :=
  text <- syscall OpRead p (fun f => (fs_read p f, f)) ;;
  match json_loads text with
  | Some c => ret c
  | None => raise (Exn JSONDecodeError (path_str p))
  end.

(** [client.dump_settings(p)] *)
Definition dump_settings (client : Client) (p : path) : M unit :=
  syscall OpWrite p (fs_write p (json_dumps client)).

(** [client.login(username, password)]: how the call ended and the
    client as the call left it. *)
Definition client_login (username password : string) (client : Client)
  : M (outcome unit * Client) :=
  fun w =>
    let '(r, c, s) := lib_login username password client (remote w) in
    (Return (r, c),
     mkWorld (fs w) s (trace w ++ [RemoteCall "login"])
             (sm_client w) (ic_client w)).

(** ** auth.py: SessionManager *)

(** [SessionManager.is_authenticated] *)
Definition is_authenticated : M bool :=
  present <- path_exists session_file ;;
  if negb present then ret false
  else
    try_except
      (client <- load_settings session_file ;;
       remote_call "account_info" (lib_account_info client) ;;
       ret true)
      (fun _ => ret false).

(** [SessionManager._save_session] *)
Definition _save_session (client : Client) : M unit :=
  try_except
    (syscall OpMkdir (parent session_file)
       (fs_mkdir_p (parent session_file)) ;;
     dump_settings client session_file ;;
     syscall OpChmod session_file (fs_chmod session_file mode_0o600) ;;
     info_message ("Session saved to " +:+ path_str session_file))
    (fun e => error_message ("Failed to save session: " +:+ exn_msg e)).

(** The first [try] block of [login]: how it ended, and the local
    [client] object as it left it. *)
Definition reuse_session (username password : string) (client : Client)
  : M (outcome unit * Client) :=
  loaded <- attempt (load_settings session_file) ;;
  match loaded with
  | Raise e => ret (Raise e, client)
  | Return client =>
      info_message "Found existing session, attempting to reuse..." ;;
      r <- client_login username password client ;;
      match r with
      | (Raise e, client) => ret (Raise e, client)
      | (Return _, client) =>
          success_message
            ("Logged in as @" +:+ username +:+ " using existing session") ;;
          set_sm_client client ;;
          ret (Return tt, client)
      end
  end.

(** The [except] clauses of the second [try] block of [login]. *)
Definition login_failed {A} (e : exn) : M A :=
  (if isinstance e BadPassword then
     error_message "Invalid password. Please check your credentials."
   else if isinstance e TwoFactorRequired then
     error_message "Two-factor authentication is required. Please disable 2FA or use app-specific password."
   else if isinstance e ChallengeRequired then
     error_message "Instagram requires additional verification. Please verify your account through the app first."
   else
     error_message ("Login failed: " +:+ exn_msg e)) ;;
  raise e.

(** The second [try] block of [login], on the local [client] object. *)
Definition fresh_login (username password : string) (client : Client)
  : M Client :=
  info_message "Logging in to Instagram..." ;;
  r <- client_login username password client ;;
  match r with
  | (Raise e, _) => login_failed e
  | (Return _, client) =>
      _save_session client ;;
      success_message ("Successfully logged in as @" +:+ username) ;;
      set_sm_client client ;;
      ret client
  end.

(** [SessionManager.login] *)
Definition login (username password : string) : M Client :=
  let client := Client_new in
  present <- path_exists session_file ;;
  if present then
    r <- reuse_session username password client ;;
    match r with
    | (Return _, client) => ret client
    | (Raise _, client) =>
        info_message "Existing session invalid, creating new one..." ;;
        fresh_login username password client
    end
  else fresh_login username password client.

(** [SessionManager.logout] *)
Definition logout : M unit :=
  try_except
    (present <- path_exists session_file ;;
     if present then
       syscall OpUnlink session_file (fs_unlink session_file) ;;
       success_message "Logged out successfully"
     else info_message "No active session found")
    (fun e => error_message ("Failed to logout: " +:+ exn_msg e) ;; raise e).

(** [SessionManager.get_client] *)
Definition get_client : M Client :=
  ok <- is_authenticated ;;
  if negb ok then
    raise (Exn LoginRequired "Not authenticated. Please login first.")
  else
    client <- load_settings session_file ;;
    try_except
      (remote_call "get_timeline_feed" (lib_get_timeline_feed client) ;;
       ret tt)
      (fun e =>
         if isinstance e LoginRequired then
           error_message "Session expired. Please login again." ;; raise e
         else raise e) ;;
    ret client.

(** [SessionManager.get_current_username] *)
Definition get_current_username : M (option string) :=
  try_except
    (client <- get_client ;;
     let user_id := client_user_id client in
     user_info <- remote_call "user_info" (lib_user_info client user_id) ;;
     ret (Some (user_username user_info)))
    (fun _ => ret None).

(** ** client.py: InstaClient *)

(** The process environment: [os.path.expanduser] on ["~" + user] (the
    empty user is the current one; [None] when no home directory can be
    determined) and the working directory. *)
Variable home : string -> option string.
Variable cwd : path.

(** [Path.expanduser] *)
Definition expanduser (p : PyPath) : outcome PyPath :=
  if is_abs p then Return p
  else
    match parts p with
    | String "~" user :: rest =>
        match home user with
        | Some h => Return (mkPath (is_abs (Path h)) (parts (Path h) ++ rest))
        | None => Raise (Exn RuntimeError "Could not determine home directory.")
        end
    | _ => Return p
    end.

(** [Path.exists] *)
Definition pypath_exists (p : PyPath) : M bool :=
  fun w =>
    (Return match walk (fs w) (if is_abs p then [] else cwd) (parts p) with
            | Some q => fs_exists q (fs w)
            | None => false
            end, w).

Definition lift {A} (r : outcome A) : M A := fun w => (r, w).

(** The [client] property: the client is made on first use. *)
Definition client : M Client :=
  fun w =>
    match ic_client w with
    | Some c => (Return c, w)
    | None => (c <- get_client ;; set_ic_client c ;; ret c) w
    end.

Definition max_retries : nat := 3.

(** The body of the [for attempt in range(max_retries)] loop of
    [_retry_on_rate_limit], over the attempts still to make.  [None] is
    the [None] Python returns when the loop runs to its end. *)
Fixpoint retry_loop {A} (func : M A) (attempts : list nat) (retry_delay : Z)
  : M (option A) :=
  match attempts with
  | [] => ret None
  | attempt :: rest =>
      try_except
        (a <- func ;; ret (Some a))
        (fun e =>
           if isinstance e RateLimitError then
             if (attempt <? max_retries - 1)%nat then
               info_message ("Rate limited. Waiting " +:+ pretty retry_delay
                             +:+ " seconds before retry...") ;;
               sleep retry_delay ;;
               retry_loop func rest (retry_delay * 2)
             else
               error_message "Rate limit exceeded. Please try again later." ;;
               raise e
           else raise e)
  end.

(** [InstaClient._retry_on_rate_limit] *)
Definition _retry_on_rate_limit {A} (func : M A) : M (option A) :=
  let retry_delay := 5 in
  retry_loop func (seq 0 max_retries) retry_delay.

(** An attribute read on what [_retry_on_rate_limit] returned. *)
Definition getattr {A B} (o : option A) (attr : string) (f : A -> B) : M B :=
  match o with
  | Some a => ret (f a)
  | None =>
      raise (Exn AttributeError
               ("'NoneType' object has no attribute '" +:+ attr +:+ "'"))
  end.

Record AccountStats := mkStats { followers : Z; following : Z; posts : Z }.

(** [InstaClient.get_account_stats] *)
Definition get_account_stats : M AccountStats :=
  try_except
    (c <- client ;;
     let user_id := client_user_id c in
     c <- client ;;
     user_info <- remote_call "user_info" (lib_user_info c user_id) ;;
     ret {| followers := user_follower_count user_info;
            following := user_following_count user_info;
            posts := user_media_count user_info |})
    (fun e =>
       (if isinstance e LoginRequired then
          error_message "Session expired. Please login again."
        else
          error_message ("Failed to get account stats: " +:+ exn_msg e)) ;;
       raise e).

(** [s.lstrip("@")] *)
Fixpoint lstrip_at (s : string) : string :=
  match s with
  | String "@" rest => lstrip_at rest
  | _ => s
  end.

(** [InstaClient.get_user_info]; the dictionary returned has the ten
    attributes of [UserInfo]. *)
Definition get_user_info (username : string) : M UserInfo :=
  let username := lstrip_at username in
  try_except
    (c <- client ;;
     user_id <- _retry_on_rate_limit
                  (remote_call "user_id_from_username"
                     (lib_user_id_from_username c username)) ;;
     c <- client ;;
     user_info <- _retry_on_rate_limit
                    (remote_call "user_info" (lib_user_info c user_id)) ;;
     getattr user_info "username" (fun u => u))
    (fun e =>
       error_message ("Failed to get user info for @" +:+ username +:+ ": "
                      +:+ exn_msg e) ;;
       raise e).

(** [l[:limit]] *)
Definition py_slice_to {A} (limit : Z) (l : list A) : list A :=
  if 0 <=? limit then take (Z.to_nat limit) l
  else take (length l - Z.to_nat (- limit)) l.



(** *** The feed *)

(** [feed.get("feed_items", [])] *)
Definition feed_items (feed : gmap string pyval) : pyval :=
  default (PList []) (feed !! "feed_items").

(** [v[:limit]] followed by iteration: the values the [for] loop visits.
    A string is sliced and visited character by character. *)
Definition slice_items (v : pyval) (limit : Z) : outcome (list pyval) :=
  match v with
  | PList l => Return (py_slice_to limit l)
  | PStr s =>
      Return (map (fun c => PStr (String c EmptyString))
                  (py_slice_to limit (list_ascii_of_string s)))
  | PDict _ => Raise (Exn TypeError "unhashable type: 'slice'")
  | _ => Raise (Exn TypeError "object is not subscriptable")
  end.

Definition is_substring (k s : string) : bool :=
  match String.index 0 k s with Some _ => true | None => false end.

(** [k in v] for a string [k] *)
Definition py_in (k : string) (v : pyval) : outcome bool :=
  match v with
  | PDict d => Return (bool_decide (is_Some (d !! k)))
  | PStr s => Return (is_substring k s)
  | PList l =>
      Return (existsb (fun x => match x with
                                | PStr s => bool_decide (s = k)
                                | _ => false
                                end) l)
  | _ => Raise (Exn TypeError "argument is not iterable")
  end.

(** [v[k]] for a string [k] *)
Definition py_getitem (k : string) (v : pyval) : outcome pyval :=
  match v with
  | PDict d =>
      match d !! k with
      | Some x => Return x
      | None => Raise (Exn KeyError k)
      end
  | PStr _ | PList _ => Raise (Exn TypeError "indices must be integers")
  | _ => Raise (Exn TypeError "object is not subscriptable")
  end.

(** [v.get(k, dflt)] *)
Definition py_get (k : string) (dflt : pyval) (v : pyval) : outcome pyval :=
  match v with
  | PDict d => Return (default dflt (d !! k))
  | _ => Raise (Exn AttributeError "object has no attribute 'get'")
  end.

Definition obind {A B} (r : outcome A) (k : A -> outcome B) : outcome B :=
  match r with
  | Return a => k a
  | Raise e => Raise e
  end.

Notation "'let!' x := r 'in' k" := (obind r (fun x => k))
  (at level 10, x name, r at level 100, k at level 200).

(** The dictionary [get_feed] builds for one post. *)
Record FeedPost := mkFeedPost {
  fp_id : pyval;
  fp_user_username : pyval;
  fp_user_full_name : pyval;
  fp_caption : pyval;
  fp_like_count : pyval;
  fp_comment_count : pyval;
  fp_media_type : pyval;
  fp_taken_at : pyval;
}.

(** The dictionary display of the loop body, evaluated left to right. *)
Definition make_post (post : pyval) : outcome FeedPost :=
  let! id := py_get "id" PNone post in
  let! user := py_get "user" (PDict ∅) post in
  let! username := py_get "username" PNone user in
  let! user' := py_get "user" (PDict ∅) post in
  let! full_name := py_get "full_name" PNone user' in
  let! caption := py_get "caption" PNone post in
  let! like_count := py_get "like_count" (PInt 0) post in
  let! comment_count := py_get "comment_count" (PInt 0) post in
  let! media_type := py_get "media_type" PNone post in
  let! taken_at := py_get "taken_at" PNone post in
  Return (mkFeedPost id username full_name caption like_count comment_count
                     media_type taken_at).

(** The [for media in ...] loop of [get_feed], appending to [posts]. *)
Fixpoint collect_posts (items : list pyval) (posts : list FeedPost)
  : outcome (list FeedPost) :=
  match items with
  | [] => Return posts
  | media :: rest =>
      let! present := py_in "media_or_ad" media in
      if (present : bool) then
        let! post := py_getitem "media_or_ad" media in
        let! entry := make_post post in
        collect_posts rest (posts ++ [entry])
      else collect_posts rest posts
  end.

(** [InstaClient.get_feed] *)
Definition get_feed (limit : Z) : M (list FeedPost) :=
  try_except
    (c <- client ;;
     feed <- _retry_on_rate_limit
               (remote_call "get_timeline_feed" (lib_get_timeline_feed c)) ;;
     match feed with
     | None =>
         raise (Exn AttributeError "'NoneType' object has no attribute 'get'")
     | Some feed =>
         lift (let! items := slice_items (feed_items feed) limit in
               collect_posts items [])
     end)
    (fun e => error_message ("Failed to get feed: " +:+ exn_msg e) ;; raise e).

(** *** Posting a photo *)

Definition allowed_suffixes : list string := [".jpg"; ".jpeg"; ".png"].

(** [InstaClient.post_photo] *)
Definition post_photo (photo_path caption : string) : M bool :=
  try_except
    (photo_file <- lift (expanduser (Path photo_path)) ;;
     present <- pypath_exists photo_file ;;
     if negb present then
       error_message ("Photo file not found: " +:+ photo_path) ;;
       ret false
     else if negb (bool_decide (lower (suffix photo_file) ∈ allowed_suffixes))
     then
       error_message "Photo must be JPG, JPEG, or PNG format" ;;
       ret false
     else
       info_message ("Uploading photo: " +:+ name photo_file) ;;
       c <- client ;;
       media <- _retry_on_rate_limit
                  (remote_call "photo_upload"
                     (lib_photo_upload c photo_file caption)) ;;
       match media with
       | Some media =>
           success_message ("Photo posted successfully! Media ID: "
                            +:+ media_pk media) ;;
           ret true
       | None =>
           error_message "Failed to post photo" ;;
           ret false
       end)
    (fun e => error_message ("Failed to post photo: " +:+ exn_msg e) ;; raise e).

(** What [get_current_user] returns: the eight attributes read from the
    user object, and [str(user_id)]. *)
Record CurrentUser := mkCurrentUser {
  cu_username : string;
  cu_full_name : string;
  cu_biography : string;
  cu_follower_count : Z;
  cu_following_count : Z;
  cu_media_count : Z;
  cu_is_private : bool;
  cu_is_verified : bool;
  cu_user_id : string;
}.

(** [str(user_id)] *)
Definition str_user_id (user_id : option Z) : string :=
  match user_id with
  | Some z => pretty z
  | None => "None"
  end.

(** [InstaClient.get_current_user] *)
Definition get_current_user : M CurrentUser :=
  try_except
    (c <- client ;;
     let user_id := client_user_id c in
     c <- client ;;
     user_info <- remote_call "user_info" (lib_user_info c user_id) ;;
     ret {| cu_username := user_username user_info;
            cu_full_name := user_full_name user_info;
            cu_biography := user_biography user_info;
            cu_follower_count := user_follower_count user_info;
            cu_following_count := user_following_count user_info;
            cu_media_count := user_media_count user_info;
            cu_is_private := user_is_private user_info;
            cu_is_verified := user_is_verified user_info;
            cu_user_id := str_user_id user_id |})
    (fun e =>
       error_message ("Failed to get current user info: " +:+ exn_msg e) ;;
       raise e).

(** ** utils.py *)

(** [os.getenv("INSTAGRAM_SESSION_FILE")]: [None] when the variable is
    not set. *)
Variable getenv_session_file : option string.

(** [utils.get_session_file_path] *)
Definition get_session_file_path : outcome PyPath :=
  let session_file :=
    default "~/.instagram_session.json" getenv_session_file in
  expanduser (Path session_file).

(** [click.Abort()]: a [RuntimeError] raised without a message. *)
Definition click_Abort : exn := Exn RuntimeError "".

(** [utils.requires_auth]: the wrapper the decorator puts around a
    command.  Its refusal is printed with the markup of
    [error_message]. *)
Definition requires_auth {A} (func : M A) : M A :=
  ok <- is_authenticated ;;
  if negb ok then
    error_message
      "Not authenticated. Please run 'instagram-cli login' first." ;;
    raise click_Abort
  else func.

(** ** cli.py *)

(** The [login] command of [cli.py].  Its [KeyboardInterrupt] clause
    answers an interrupt of the user, which is no [Exception] and is not
    among the exceptions of this development. *)
Definition cli_login (username password : string) : M unit :=
  try_except
    (login username password ;; ret tt)
    (fun e =>
       error_message ("Login failed: " +:+ exn_msg e) ;; raise click_Abort).

(** The [logout] command of [cli.py]. *)
Definition cli_logout : M unit :=
  try_except
    logout
    (fun e =>
       error_message ("Logout failed: " +:+ exn_msg e) ;; raise click_Abort).

End Program.

(** ** Vocabulary of the statements *)

(** The console line that announces a wait of [d]. *)
Definition waiting (d : Z) : event :=
  Info ("Rate limited. Waiting " +:+ pretty d +:+ " seconds before retry...").

(** The console line that reports the exhausted retries. *)
Definition exceeded : event :=
  Error "Rate limit exceeded. Please try again later.".

(** The world [w] after the events [new], with the remote service left
    in state [s]; files and objects as in [w]. *)
Definition after {L : Instagrapi} (w : World) (s : Remote)
  (new : list event) : World :=
  mkWorld (fs w) s (trace w ++ new) (sm_client w) (ic_client w).

(** A feed item that is a dictionary with the key ["media_or_ad"]. *)
Definition is_media (item : pyval) : bool :=
  match item with
  | PDict d => bool_decide (is_Some (d !! "media_or_ad"))
  | _ => false
  end.

(** Feed items as the service sends them: each item is a dictionary; the
    value under ["media_or_ad"], when there is one, is a dictionary whose
    ["user"], when there is one, is a dictionary. *)
Definition well_formed_item (item : pyval) : bool :=
  match item with
  | PDict d =>
      match d !! "media_or_ad" with
      | None => true
      | Some (PDict post) =>
          match post !! "user" with
          | None | Some (PDict _) => true
          | Some _ => false
          end
      | Some _ => false
      end
  | _ => false
  end.

(** The entry shown for a media item, and [None] for any other item. *)
Definition media_entry (item : pyval) : option FeedPost :=
  match item with
  | PDict d =>
      match d !! "media_or_ad" with
      | Some (PDict post) =>
          let user := match post !! "user" with
                      | Some (PDict u) => u
                      | _ => ∅
                      end in
          Some {| fp_id := default PNone (post !! "id");
                  fp_user_username := default PNone (user !! "username");
                  fp_user_full_name := default PNone (user !! "full_name");
                  fp_caption := default PNone (post !! "caption");
                  fp_like_count := default (PInt 0) (post !! "like_count");
                  fp_comment_count :=
                    default (PInt 0) (post !! "comment_count");
                  fp_media_type := default PNone (post !! "media_type");
                  fp_taken_at := default PNone (post !! "taken_at") |}
      | _ => None
      end
  | _ => None
  end.

(** Nothing stands in the way of a save to [session_file]: the
    operating system refuses none of the three calls, no regular file
    sits where the parent directories go, and the path itself is not a
    directory. *)
Definition save_unhindered (session_file : path) (f : FileSys) : bool :=
  bool_decide (denied f OpMkdir (parent session_file) = None)
  && bool_decide (denied f OpWrite session_file = None)
  && bool_decide (denied f OpChmod session_file = None)
  && forallb (fun q => match nodes f !! q with
                       | Some (File _ _) => false
                       | _ => true
                       end)
             (ancestors_and_self (parent session_file))
  && match stat f session_file with Some Dir => false | _ => true end.

(** The events of a save that goes through. *)
Definition saved (session_file : path) : list event :=
  [Syscall OpMkdir (parent session_file); Syscall OpWrite session_file;
   Syscall OpChmod session_file;
   Info ("Session saved to " +:+ path_str session_file)].

(** The console line of a save that failed with [e]. *)
Definition save_failed (e : exn) : event :=
  Error ("Failed to save session: " +:+ exn_msg e).

(** The events of a login that reuses the stored session. *)
Definition reused (session_file : path) (username : string) : list event :=
  [Syscall OpRead session_file;
   Info "Found existing session, attempting to reuse...";
   RemoteCall "login";
   Success ("Logged in as @" +:+ username +:+ " using existing session")].

(** No event of [new] is a filesystem call that changes a file. *)
Definition read_only (new : list event) : bool :=
  forallb (fun ev => match ev with
                     | Syscall OpRead _ => true
                     | Syscall _ _ => false
                     | _ => true
                     end) new.



(** The exception of [get_client] when there is no valid session. *)
Definition not_authenticated : exn :=
  Exn LoginRequired "Not authenticated. Please login first.".

(** The events of [get_client] after a positive [is_authenticated], when
    the liveness check finds the session expired. *)
Definition expired (session_file : path) : list event :=
  [Syscall OpRead session_file; RemoteCall "get_timeline_feed";
   Error "Session expired. Please login again."].

(** The console lines of a photo refused before any upload. *)
Definition photo_not_found (photo_path : string) : event :=
  Error ("Photo file not found: " +:+ photo_path).

Definition photo_wrong_format : event :=
  Error "Photo must be JPG, JPEG, or PNG format".

(** The events of an upload that goes through at once, after the
    announcement. *)
Definition uploaded (media : Media) : list event :=
  [RemoteCall "photo_upload";
   Success ("Photo posted successfully! Media ID: " +:+ media_pk media)].


(** The events of a login with the credentials that goes through and
    is saved. *)
Definition logged_in (session_file : path) (username : string)
  : list event :=
  [Info "Logging in to Instagram..."; RemoteCall "login"]
  ++ saved session_file
  ++ [Success ("Successfully logged in as @" +:+ username)].

(** [n] at signs in front of a name. *)
Fixpoint at_signs (n : nat) (name : string) : string :=
  match n with
  | O => name
  | S n => String "@" (at_signs n name)
  end.

(** The text has no ["."] in it. *)
Fixpoint dotless (s : string) : bool :=
  match s with
  | EmptyString => true
  | String c rest => negb (Ascii.eqb c ".") && dotless rest
  end.

(** The events of the first use of the [client] property with a usable
    session: the session file is read twice and two capabilities are
    called. *)
Definition client_made (session_file : path) : list event :=
  [Syscall OpRead session_file; RemoteCall "account_info";
   Syscall OpRead session_file; RemoteCall "get_timeline_feed"].

(** The console line of a command refused by [requires_auth]. *)
Definition refused_by_guard : event :=
  Error "Not authenticated. Please run 'instagram-cli login' first.".

(** The events of the statistics operation behind the guard, from a new
    gateway with a usable session. *)
Definition guarded_stats (session_file : path) : list event :=
  [Syscall OpRead session_file; RemoteCall "account_info"]
  ++ client_made session_file
  ++ [RemoteCall "user_info"].

(** ** A scripted library

    An instance of the library for concrete runs: a client's state is the
    text of its session, and the remote service answers each capability
    from a queue of scripted results. *)
Module Mock.

Record remote_state := mkRemote {
  login_script : list (string -> string -> string -> outcome unit * string);
  account_info_script : list (outcome unit);
  feed_script : list (outcome (gmap string pyval));
  user_id_script : list (outcome Z);
  user_info_script : list (outcome UserInfo);
  search_script : list (outcome (list UserInfo));
  upload_script : list (outcome Media);
}.

Definition unscripted : exn := Exn ClientError "no response scripted".

Definition next {A} (q : list (outcome A)) : outcome A * list (outcome A) :=
  match q with
  | [] => (Raise unscripted, [])
  | r :: rest => (r, rest)
  end.

Definition mock_login (u p c : string) (r : remote_state)
  : outcome unit * string * remote_state :=
  match login_script r with
  | [] => (Raise unscripted, c, r)
  | f :: rest =>
      (f u p c,
       mkRemote rest (account_info_script r) (feed_script r)
                (user_id_script r) (user_info_script r) (search_script r)
                (upload_script r))
  end.

Definition mock_account_info (_ : string) (r : remote_state) :=
  let (x, rest) := next (account_info_script r) in
  (x, mkRemote (login_script r) rest (feed_script r) (user_id_script r)
               (user_info_script r) (search_script r) (upload_script r)).

Definition mock_feed (_ : string) (r : remote_state) :=
  let (x, rest) := next (feed_script r) in
  (x, mkRemote (login_script r) (account_info_script r) rest
               (user_id_script r) (user_info_script r) (search_script r)
               (upload_script r)).

Definition mock_user_id (_ _ : string) (r : remote_state) :=
  let (x, rest) := next (user_id_script r) in
  (x, mkRemote (login_script r) (account_info_script r) (feed_script r) rest
               (user_info_script r) (search_script r) (upload_script r)).

Definition mock_user_info (_ : string) (_ : option Z) (r : remote_state) :=
  let (x, rest) := next (user_info_script r) in
  (x, mkRemote (login_script r) (account_info_script r) (feed_script r)
               (user_id_script r) rest (search_script r) (upload_script r)).

Definition mock_search (_ _ : string) (r : remote_state) :=
  let (x, rest) := next (search_script r) in
  (x, mkRemote (login_script r) (account_info_script r) (feed_script r)
               (user_id_script r) (user_info_script r) rest (upload_script r)).

Definition mock_upload (_ : string) (_ : PyPath) (_ : string)
  (r : remote_state) :=
  let (x, rest) := next (upload_script r) in
  (x, mkRemote (login_script r) (account_info_script r) (feed_script r)
               (user_id_script r) (user_info_script r) (search_script r) rest).

#[global] Instance mock : Instagrapi := {|
  Client := string;
  Remote := remote_state;
  Client_new := "{}";
  json_dumps := fun c => c;
  json_loads := fun t => if String.prefix "{" t then Some t else None;
  client_user_id := fun _ => Some 42;
  lib_login := mock_login;
  lib_account_info := mock_account_info;
  lib_get_timeline_feed := mock_feed;
  lib_user_id_from_username := mock_user_id;
  lib_user_info := mock_user_info;
  lib_search_users := mock_search;
  lib_photo_upload := mock_upload;
|}.

Definition quiet : remote_state := mkRemote [] [] [] [] [] [] [].

Definition rate_limited : exn := Exn RateLimitError "Please wait a few minutes".

Definition no_denial : fsop -> path -> option exn := fun _ _ => None.

Definition session_file : path := ["home"; "ana"; ".instagram_session.json"].

Definition empty_home : FileSys :=
  mkFS (<[ ["home"; "ana"] := Dir ]> (<[ ["home"] := Dir ]> ∅)) no_denial.

Definition start (f : FileSys) (r : remote_state) : World :=
  mkWorld f r [] None None.

(** A feed capability that is rate limited twice and then answers. *)
Definition feed_third_time : remote_state :=
  mkRemote [] [] [Raise rate_limited; Raise rate_limited; Return ∅]
           [] [] [] [].

Definition feed_second_time : remote_state :=
  mkRemote [] [] [Raise rate_limited; Return ∅] [] [] [] [].

Definition feed_first_time : remote_state :=
  mkRemote [] [] [Return ∅] [] [] [] [].

(** A feed capability that is rate limited three times; a fourth call
    would be answered. *)
Definition feed_fourth_time : remote_state := feed_first_time.

Definition feed_always_limited : remote_state :=
  mkRemote [] []
           [Raise rate_limited; Raise rate_limited; Raise rate_limited;
            Return ∅]
           [] [] [] [].

Definition login_required : exn := Exn LoginRequired "login_required".

(** A feed capability that fails once for a reason other than a rate
    limit; a second call would be answered. *)
Definition feed_login_required : remote_state :=
  mkRemote [] [] [Raise login_required; Return ∅] [] [] [] [].

(** A feed page of eight items: two that are not media, then six media. *)
Definition media (id : string) : pyval :=
  PDict {[ "media_or_ad" := PDict {[ "id" := PStr id ]} ]}.

Definition suggestion : pyval := PDict {[ "suggested_users" := PList [] ]}.

Definition page : list pyval :=
  [suggestion; suggestion; media "1"; media "2"; media "3"; media "4";
   media "5"; media "6"].

Definition feed_page : remote_state :=
  mkRemote [] [] [Return {[ "feed_items" := PList page ]}] [] [] [] [].

(** A world in which the gateway already holds its client. *)
Definition signed_in (r : remote_state) : World :=
  mkWorld empty_home r [] None (Some "{session}").

Definition ana : UserInfo :=
  mkUserInfo "ana" "Ana" "" 10 20 3 false false None "https://pic".

(** A profile capability that is rate limited once and then answers. *)
Definition profile_second_time : remote_state :=
  mkRemote [] [] [] [Return 42] [Raise rate_limited; Return ana] [] [].

Definition profile_first_time : remote_state :=
  mkRemote [] [] [] [Return 42] [Return ana] [] [].

Definition disk_full : exn := Exn OSError "[Errno 28] No space left on device".

(** The operating system refuses to write the session file. *)
Definition no_space : fsop -> path -> option exn :=
  fun op p =>
    if bool_decide (op = OpWrite /\ p = session_file) then Some disk_full
    else None.

Definition full_home : FileSys :=
  mkFS (<[ ["home"; "ana"] := Dir ]> (<[ ["home"] := Dir ]> ∅)) no_space.

(** A login that the service accepts, leaving the client with a new
    session. *)
Definition accept : string -> string -> string -> outcome unit * string :=
  fun u _ _ => (Return tt, "{session of " +:+ u +:+ "}").


(** A home directory that holds an older session file. *)
Definition old_home (d : fsop -> path -> option exn) : FileSys :=
  mkFS (<[ session_file := File "{old}" mode_0o600 ]>
          (<[ ["home"; "ana"] := Dir ]> (<[ ["home"] := Dir ]> ∅))) d.

Definition accepting : remote_state := mkRemote [accept] [] [] [] [] [] [].


(** A login that the service accepts on a client just made and rejects on
    a client that carries an older session. *)
Definition only_new : string -> string -> string -> outcome unit * string :=
  fun u _ c =>
    if bool_decide (c = "{}") then (Return tt, "{session of " +:+ u +:+ "}")
    else (Raise login_required, c).

Definition strict : remote_state :=
  mkRemote [only_new; only_new] [] [] [] [] [] [].

(** A service on which the account probe passes and the feed reports the
    session as expired. *)
Definition expiring : remote_state :=
  mkRemote [] [Return tt] [Raise login_required] [] [] [] [].

Definition home : string -> option string :=
  fun user => if bool_decide (user = "") then Some "/home/ana" else None.

Definition cwd : path := ["home"; "ana"].

(** A home directory with two pictures. *)
Definition pictures : FileSys :=
  mkFS (<[ ["home"; "ana"; "cat.gif"] := File "GIF89a" default_file_mode ]>
          (<[ ["home"; "ana"; "cat.JPG"] := File "JFIF" default_file_mode ]>
             (<[ ["home"; "ana"] := Dir ]> (<[ ["home"] := Dir ]> ∅))))
       no_denial.

Definition uploading : remote_state :=
  mkRemote [] [] [] [] [] [] [Return (mkMedia "3141")].

Definition at_pictures (r : remote_state) : World :=
  mkWorld pictures r [] None (Some "{session}").

Definition busy : exn := Exn OSError "[Errno 16] Device or resource busy".

(** The operating system refuses to remove the session file. *)
Definition no_unlink : fsop -> path -> option exn :=
  fun op p =>
    if bool_decide (op = OpUnlink /\ p = session_file) then Some busy
    else None.

Definition bad_password : exn := Exn BadPassword "bad_password".

(** A login that the service refuses for a wrong password. *)
Definition refuse : string -> string -> string -> outcome unit * string :=
  fun _ _ c => (Raise bad_password, c).

Definition refusing : remote_state := mkRemote [refuse] [] [] [] [] [] [].

(** A home directory whose session file does not parse. *)
Definition corrupt_home : FileSys :=
  mkFS (<[ session_file := File "not json" mode_0o600 ]>
          (<[ ["home"; "ana"] := Dir ]> (<[ ["home"] := Dir ]> ∅)))
       no_denial.



(** A feed page without items, and one whose only item is malformed. *)
Definition feed_bare : remote_state :=
  mkRemote [] [] [Return {[ "status" := PStr "ok" ]}] [] [] [] [].

Definition feed_malformed : remote_state :=
  mkRemote [] [] [Return {[ "feed_items" := PList [PNone] ]}] [] [] [] [].

(** An upload capability that is rate limited three times. *)
Definition upload_limited (n : nat) : remote_state :=
  mkRemote [] [] [] [] [] [] (replicate n (Raise rate_limited)).

(** A service on which the account probe passes twice, the feed is
    fetched and the profile is returned. *)
Definition serving : remote_state :=
  mkRemote [] [Return tt; Return tt] [Return ∅] [] [Return ana] [] [].

Definition served_once : remote_state :=
  mkRemote [] [Return tt] [Return ∅] [] [Return ana] [] [].

Definition probed : remote_state :=
  mkRemote [] [] [Return ∅] [] [Return ana] [] [].

Definition fed : remote_state :=
  mkRemote [] [] [] [] [Return ana] [] [].

(** A service that accepts one login and then passes one account probe. *)
Definition login_then_probe : remote_state :=
  mkRemote [accept] [Return tt] [] [] [] [] [].

End Mock.

(** * Properties *)

(** Two runs of the same call from the same state are one run. *)
Ltac same_run :=
  repeat match goal with
         | H1 : ?a = _, H2 : ?a = _ |- _ => rewrite H1 in H2
         | H : (_, _) = (_, _) |- _ => inversion H; clear H; subst
         end.

(** ** The retry wrapper *)

Section Retry.

Context {L : Instagrapi} {A : Type}.

Lemma after_after w s s' t t' :
  after (after w s t) s' t' = after w s' (t ++ t').
Proof. unfold after; cbn. by rewrite app_assoc. Qed.

Lemma remote_call_run name (f : Remote -> outcome A * Remote) w r s :
  f (remote w) = (r, s) ->
  remote_call name f w = (r, after w s [RemoteCall name]).
Proof. intros H. unfold remote_call. by rewrite H. Qed.

(** One round of the loop that meets a rate limit before the last
    attempt: the wait is announced and slept, and the loop goes on with
    the delay doubled. *)
Lemma retry_loop_rate_limited name (f : Remote -> outcome A * Remote)
      attempt rest d w e s :
  f (remote w) = (Raise e, s) ->
  exn_cls e = RateLimitError ->
  (attempt < max_retries - 1)%nat ->
  retry_loop (remote_call name f) (attempt :: rest) d w =
  retry_loop (remote_call name f) rest (d * 2)
             (after w s [RemoteCall name; waiting d; Sleep d]).
Proof.
  intros Hf Hcls Hlt. cbn [retry_loop]. unfold try_except at 1, bind at 1.
  rewrite (remote_call_run _ _ _ _ _ Hf).
  unfold isinstance. rewrite bool_decide_eq_true_2 by done.
  destruct (Nat.ltb_spec attempt (max_retries - 1)); [|lia].
  unfold bind, info_message, sleep, emit, after; cbn.
  by rewrite <- !app_assoc.
Qed.

(** The last attempt meets a rate limit: the failure is reported and the
    exception raised again, without a sleep. *)
Lemma retry_loop_exhausted name (f : Remote -> outcome A * Remote)
      attempt rest d w e s :
  f (remote w) = (Raise e, s) ->
  exn_cls e = RateLimitError ->
  ~ (attempt < max_retries - 1)%nat ->
  retry_loop (remote_call name f) (attempt :: rest) d w =
  (Raise e, after w s [RemoteCall name; exceeded]).
Proof.
  intros Hf Hcls Hlt. cbn [retry_loop]. unfold try_except at 1, bind at 1.
  rewrite (remote_call_run _ _ _ _ _ Hf).
  unfold isinstance. rewrite bool_decide_eq_true_2 by done.
  destruct (Nat.ltb_spec attempt (max_retries - 1)); [lia|].
  unfold bind, error_message, raise, emit, after; cbn.
  by rewrite <- !app_assoc.
Qed.

(** An attempt that ends normally ends the loop. *)
Lemma retry_loop_returns name (f : Remote -> outcome A * Remote)
      attempt rest d w v s :
  f (remote w) = (Return v, s) ->
  retry_loop (remote_call name f) (attempt :: rest) d w =
  (Return (Some v), after w s [RemoteCall name]).
Proof.
  intros Hf. cbn [retry_loop]. unfold try_except, bind.
  by rewrite (remote_call_run _ _ _ _ _ Hf).
Qed.

(** An exception that is not a rate limit leaves the loop at once. *)
Lemma retry_loop_other_error name (f : Remote -> outcome A * Remote)
      attempt rest d w e s :
  f (remote w) = (Raise e, s) ->
  exn_cls e <> RateLimitError ->
  retry_loop (remote_call name f) (attempt :: rest) d w =
  (Raise e, after w s [RemoteCall name]).
Proof.
  intros Hf Hcls. cbn [retry_loop]. unfold try_except, bind.
  rewrite (remote_call_run _ _ _ _ _ Hf).
  unfold isinstance. by rewrite bool_decide_eq_false_2.
Qed.

End Retry.

(** The loop of [_retry_on_rate_limit] never runs to its end: the third
    attempt returns or raises, so the wrapper never returns [None] on its
    own. *)
Lemma retry_never_falls_through {L : Instagrapi} {A} (func : M A) w r w' :
  _retry_on_rate_limit func w = (Return r, w') -> r <> None.
Proof.
  unfold _retry_on_rate_limit, max_retries. cbn [seq retry_loop].
  unfold try_except, bind, ret, raise, info_message, error_message, sleep,
    emit.
  repeat (match goal with
          | |- context [func ?x] => destruct (func x) as [[?|?] ?]
          | |- context [isinstance ?e ?c] => destruct (isinstance e c)
          end; cbn); intros H; inversion H; done.
Qed.

(** C1: with the policy of the code (three attempts, first delay 5,
    doubling), an operation that is rate limited on attempts 1 and 2 and
    succeeds on attempt 3 makes the wrapper return the successful result
    after exactly three attempts and exactly two sleeps, of 5 then 10. *)
Theorem retry_succeeds_on_third_attempt {L : Instagrapi} {A} name
    (f : Remote -> outcome A * Remote) (w : World)
    (e1 e2 : exn) (s1 s2 s3 : Remote) (v : A) :
  exn_cls e1 = RateLimitError ->
  exn_cls e2 = RateLimitError ->
  f (remote w) = (Raise e1, s1) ->
  f s1 = (Raise e2, s2) ->
  f s2 = (Return v, s3) ->
  exists new,
    _retry_on_rate_limit (remote_call name f) w
      = (Return (Some v), after w s3 new)
    /\ new = [RemoteCall name; waiting 5; Sleep 5;
              RemoteCall name; waiting 10; Sleep 10; RemoteCall name]
    /\ sleeps new = [5; 10]
    /\ length (remote_calls new) = 3%nat.
Proof.
  intros He1 He2 H1 H2 H3. eexists. split; [|split; [reflexivity|done]].
  unfold _retry_on_rate_limit, max_retries. cbn [seq].
  rewrite (retry_loop_rate_limited _ _ _ _ _ _ _ _ H1 He1)
    by (unfold max_retries; lia).
  rewrite (retry_loop_rate_limited name f 1%nat _ _ _ e2 s2)
    by (done || unfold max_retries; lia).
  rewrite (retry_loop_returns name f 2%nat _ _ _ v s3) by done.
  by rewrite !after_after.
Qed.

Lemma retry_succeeds_on_third_attempt_witness :
  exists new,
    _retry_on_rate_limit
      (remote_call "get_timeline_feed" (@lib_get_timeline_feed Mock.mock "{}"))
      (Mock.start Mock.empty_home Mock.feed_third_time)
      = (Return (Some ∅),
         after (Mock.start Mock.empty_home Mock.feed_third_time)
               Mock.quiet new)
    /\ new = [RemoteCall "get_timeline_feed"; waiting 5; Sleep 5;
              RemoteCall "get_timeline_feed"; waiting 10; Sleep 10;
              RemoteCall "get_timeline_feed"]
    /\ sleeps new = [5; 10]
    /\ length (remote_calls new) = 3%nat.
Proof.
  apply (retry_succeeds_on_third_attempt "get_timeline_feed"
           (@lib_get_timeline_feed Mock.mock "{}")
           (Mock.start Mock.empty_home Mock.feed_third_time)
           Mock.rate_limited Mock.rate_limited
           Mock.feed_second_time Mock.feed_first_time Mock.quiet ∅);
    reflexivity.
Defined.

(** C2: an operation that is rate limited on each of the three attempts
    makes the wrapper fail with the rate-limit error of the last attempt,
    reported as exceeded; there is no fourth attempt and no sleep after
    the last one.  An exception of any other class leaves the wrapper on
    its first occurrence, whatever the attempt, with nothing slept and no
    further attempt. *)
Theorem retry_gives_up_after_three {L : Instagrapi} {A} name
    (f : Remote -> outcome A * Remote) (w : World) :
  (forall e1 e2 e3 s1 s2 s3,
      exn_cls e1 = RateLimitError ->
      exn_cls e2 = RateLimitError ->
      exn_cls e3 = RateLimitError ->
      f (remote w) = (Raise e1, s1) ->
      f s1 = (Raise e2, s2) ->
      f s2 = (Raise e3, s3) ->
      exists new,
        _retry_on_rate_limit (remote_call name f) w
          = (Raise e3, after w s3 new)
        /\ new = [RemoteCall name; waiting 5; Sleep 5;
                  RemoteCall name; waiting 10; Sleep 10;
                  RemoteCall name; exceeded]
        /\ length (remote_calls new) = 3%nat
        /\ sleeps new = [5; 10]
        /\ last new = Some exceeded)
  /\ (forall e s attempt rest d,
      exn_cls e <> RateLimitError ->
      f (remote w) = (Raise e, s) ->
      retry_loop (remote_call name f) (attempt :: rest) d w
        = (Raise e, after w s [RemoteCall name])).
Proof.
  split.
  - intros e1 e2 e3 s1 s2 s3 He1 He2 He3 H1 H2 H3.
    eexists. split; [|split; [reflexivity|done]].
    unfold _retry_on_rate_limit, max_retries. cbn [seq].
    rewrite (retry_loop_rate_limited _ _ _ _ _ _ _ _ H1 He1)
      by (unfold max_retries; lia).
    rewrite (retry_loop_rate_limited name f 1%nat _ _ _ e2 s2)
      by (done || unfold max_retries; lia).
    rewrite (retry_loop_exhausted name f 2%nat _ _ _ e3 s3)
      by (done || unfold max_retries; lia).
    by rewrite !after_after.
  - intros e s attempt rest d He Hf. by apply retry_loop_other_error.
Qed.

Lemma retry_gives_up_after_three_witness :
  (exists new,
      _retry_on_rate_limit
        (remote_call "get_timeline_feed" (@lib_get_timeline_feed Mock.mock "{}"))
        (Mock.start Mock.empty_home Mock.feed_always_limited)
        = (Raise Mock.rate_limited,
           after (Mock.start Mock.empty_home Mock.feed_always_limited)
                 Mock.feed_fourth_time new)
      /\ new = [RemoteCall "get_timeline_feed"; waiting 5; Sleep 5;
                RemoteCall "get_timeline_feed"; waiting 10; Sleep 10;
                RemoteCall "get_timeline_feed"; exceeded]
      /\ length (remote_calls new) = 3%nat
      /\ sleeps new = [5; 10]
      /\ last new = Some exceeded)
  /\ _retry_on_rate_limit
       (remote_call "get_timeline_feed" (@lib_get_timeline_feed Mock.mock "{}"))
       (Mock.start Mock.empty_home Mock.feed_login_required)
     = (Raise Mock.login_required,
        after (Mock.start Mock.empty_home Mock.feed_login_required)
              Mock.feed_first_time [RemoteCall "get_timeline_feed"]).
Proof.
  split.
  - apply (proj1 (retry_gives_up_after_three "get_timeline_feed"
                    (@lib_get_timeline_feed Mock.mock "{}")
                    (Mock.start Mock.empty_home Mock.feed_always_limited))
             Mock.rate_limited Mock.rate_limited Mock.rate_limited
             Mock.feed_third_time Mock.feed_second_time
             Mock.feed_fourth_time); reflexivity.
  - apply (proj2 (retry_gives_up_after_three "get_timeline_feed"
                    (@lib_get_timeline_feed Mock.mock "{}")
                    (Mock.start Mock.empty_home Mock.feed_login_required))
             Mock.login_required Mock.feed_first_time 0%nat [1%nat; 2%nat] 5);
      [discriminate | reflexivity].
Defined.

(** ** The feed *)

Lemma make_post_media_entry d post :
  d !! "media_or_ad" = Some (PDict post) ->
  well_formed_item (PDict d) = true ->
  exists entry, media_entry (PDict d) = Some entry
                /\ make_post (PDict post) = Return entry.
Proof.
  intros Hd Hwf. cbn in Hwf. cbn [media_entry]. rewrite Hd in Hwf |- *.
  eexists; split; [reflexivity|].
  unfold make_post. cbn [py_get obind].
  destruct (post !! "user") as [[]|]; try discriminate; reflexivity.
Qed.

(** On well-formed items the loop of [get_feed] appends, in order, the
    entry of every media item and skips the others. *)
Lemma collect_posts_omap items : forall acc,
  forallb well_formed_item items = true ->
  collect_posts items acc = Return (acc ++ omap media_entry items).
Proof.
  induction items as [|item items IH]; intros acc Hwf; cbn [collect_posts].
  - cbn. by rewrite app_nil_r.
  - cbn [forallb] in Hwf. apply andb_prop in Hwf as [Hitem Hrest].
    destruct item as [| | | | |d]; try discriminate.
    cbn [py_in obind omap list_omap].
    destruct (d !! "media_or_ad") as [v|] eqn:Hd.
    + rewrite bool_decide_eq_true_2 by eauto.
      cbn [py_getitem]. rewrite Hd. cbn [obind].
      destruct v as [| | | | |post];
        try (cbn in Hitem; rewrite Hd in Hitem; discriminate).
      destruct (make_post_media_entry d post Hd Hitem) as (entry & He & Hm).
      rewrite Hm. cbn [obind]. rewrite IH by done.
      rewrite He. by rewrite <- app_assoc.
    + rewrite bool_decide_eq_false_2 by (intros [? ?]; discriminate).
      rewrite IH by done.
      cbn [media_entry]. by rewrite Hd.
Qed.

Lemma py_slice_to_length {A} limit (l : list A) :
  0 <= limit -> (length (py_slice_to limit l) <= Z.to_nat limit)%nat.
Proof.
  intros H. unfold py_slice_to.
  destruct (Z.leb_spec 0 limit); [|lia]. rewrite length_take. lia.
Qed.

Lemma forallb_take {A} (P : A -> bool) n l :
  forallb P l = true -> forallb P (take n l) = true.
Proof.
  intros H. rewrite <- (take_drop n l), forallb_app in H.
  by apply andb_prop in H as [? _].
Qed.

Lemma py_slice_to_forallb {A} (P : A -> bool) limit l :
  forallb P l = true -> forallb P (py_slice_to limit l) = true.
Proof.
  intros H. unfold py_slice_to.
  destruct (0 <=? limit); by apply forallb_take.
Qed.

Lemma omap_length_le {A B} (f : A -> option B) l :
  (length (omap f l) <= length l)%nat.
Proof.
  induction l as [|x l IH]; cbn; [lia|]. destruct (f x); cbn; lia.
Qed.

(** C3, as the code has it: [get_feed] first keeps the first [limit]
    items of the feed page and then, among these, returns the entries of
    the media items, in the order of the page.  The result has at most
    [limit] entries, and fewer when an item that is not media is among
    the first [limit]. *)
Theorem get_feed_slices_then_filters {L : Instagrapi} session_file limit
    (w w1 : World) c feed s items :
  client session_file w = (Return c, w1) ->
  lib_get_timeline_feed c (remote w1) = (Return feed, s) ->
  feed !! "feed_items" = Some (PList items) ->
  forallb well_formed_item items = true ->
  exists posts,
    get_feed session_file limit w
      = (Return posts, after w1 s [RemoteCall "get_timeline_feed"])
    /\ posts = omap media_entry (py_slice_to limit items)
    /\ (0 <= limit -> (length posts <= Z.to_nat limit)%nat).
Proof.
  intros Hc Hfeed Hitems Hwf. eexists. split; [|split; [reflexivity|]].
  - unfold get_feed, try_except. unfold bind at 1. rewrite Hc.
    unfold bind at 1. unfold _retry_on_rate_limit, max_retries. cbn [seq].
    rewrite (retry_loop_returns _ _ _ _ _ _ _ _ Hfeed).
    unfold lift, feed_items. rewrite Hitems.
    cbn [default from_option id slice_items obind].
    rewrite collect_posts_omap by by apply py_slice_to_forallb.
    reflexivity.
  - intros Hlimit. etrans; [apply omap_length_le|].
    by apply py_slice_to_length.
Qed.

Lemma get_feed_slices_then_filters_witness :
  exists posts,
    get_feed Mock.session_file 5 (Mock.signed_in Mock.feed_page)
      = (Return posts,
         after (Mock.signed_in Mock.feed_page) Mock.quiet
               [RemoteCall "get_timeline_feed"])
    /\ posts = omap media_entry (py_slice_to 5 Mock.page)
    /\ (0 <= 5 -> (length posts <= Z.to_nat 5)%nat).
Proof.
  apply (get_feed_slices_then_filters Mock.session_file 5
           (Mock.signed_in Mock.feed_page) (Mock.signed_in Mock.feed_page)
           "{session}" {[ "feed_items" := PList Mock.page ]} Mock.quiet
           Mock.page); reflexivity.
Defined.

(** C3, as the claim has it, fails: on a page of eight items of which
    the first two are not media, a limit of 5 gives three entries. *)
Lemma get_feed_returns_fewer_than_limit :
  length Mock.page = 8%nat
  /\ length (List.filter (fun item => negb (is_media item)) Mock.page) = 2%nat
  /\ exists posts,
       fst (get_feed Mock.session_file 5 (Mock.signed_in Mock.feed_page))
         = Return posts
       /\ length posts = 3%nat
       /\ length posts <> 5%nat.
Proof.
  split; [reflexivity|]. split; [reflexivity|].
  eexists. split; [vm_compute; reflexivity|]. split; [reflexivity|].
  cbn. lia.
Qed.

(** ** The account operations *)

(** Once the gateway holds its client, the [client] property returns it
    and changes nothing. *)
Lemma client_cached {L : Instagrapi} session_file (w w1 : World) c :
  client session_file w = (Return c, w1) ->
  client session_file w1 = (Return c, w1).
Proof.
  unfold client. destruct (ic_client w) as [c0|] eqn:Hic.
  - intros [= <- <-]. by rewrite Hic.
  - unfold bind, set_ic_client, ret.
    destruct (get_client session_file w) as [[c1|e] w2]; [|discriminate].
    by intros [= <- <-].
Qed.

(** C4, what the code does: [get_account_stats] and [get_current_user]
    call the profile capability directly.  A rate limit on that call is
    reported and raised at once: one call, no sleep, no second attempt. *)
Theorem account_operations_do_not_retry {L : Instagrapi} session_file
    (w w1 : World) c e s :
  client session_file w = (Return c, w1) ->
  lib_user_info c (client_user_id c) (remote w1) = (Raise e, s) ->
  exn_cls e = RateLimitError ->
  get_account_stats session_file w
    = (Raise e,
       after w1 s [RemoteCall "user_info";
                   Error ("Failed to get account stats: " +:+ exn_msg e)])
  /\ get_current_user session_file w
    = (Raise e,
       after w1 s [RemoteCall "user_info";
                   Error ("Failed to get current user info: "
                          +:+ exn_msg e)]).
Proof.
  intros Hc Hu He. pose proof (client_cached _ _ _ _ Hc) as Hc1.
  split.
  - unfold get_account_stats, try_except. unfold bind at 1. rewrite Hc.
    unfold bind at 1. rewrite Hc1. unfold bind at 1.
    rewrite (remote_call_run _ _ _ _ _ Hu).
    unfold isinstance. rewrite bool_decide_eq_false_2 by (rewrite He; done).
    unfold bind, error_message, emit, raise, after; cbn.
    by rewrite <- app_assoc.
  - unfold get_current_user, try_except. unfold bind at 1. rewrite Hc.
    unfold bind at 1. rewrite Hc1. unfold bind at 1.
    rewrite (remote_call_run _ _ _ _ _ Hu).
    unfold bind, error_message, emit, raise, after; cbn.
    by rewrite <- app_assoc.
Qed.

Lemma account_operations_do_not_retry_witness :
  get_account_stats Mock.session_file (Mock.signed_in Mock.profile_second_time)
    = (Raise Mock.rate_limited,
       after (Mock.signed_in Mock.profile_second_time)
             Mock.profile_first_time
             [RemoteCall "user_info";
              Error "Failed to get account stats: Please wait a few minutes"])
  /\ get_current_user Mock.session_file
       (Mock.signed_in Mock.profile_second_time)
    = (Raise Mock.rate_limited,
       after (Mock.signed_in Mock.profile_second_time)
             Mock.profile_first_time
             [RemoteCall "user_info";
              Error "Failed to get current user info: Please wait a few minutes"]).
Proof.
  apply (account_operations_do_not_retry Mock.session_file
           (Mock.signed_in Mock.profile_second_time)
           (Mock.signed_in Mock.profile_second_time)
           "{session}" Mock.rate_limited Mock.profile_first_time);
    reflexivity.
Defined.

(** The sibling operation [get_user_info] wraps the same capability: on
    the same remote service it waits, calls again and returns. *)
Lemma get_user_info_retries :
  get_user_info Mock.session_file "@ana"
    (Mock.signed_in Mock.profile_second_time)
  = (Return Mock.ana,
     after (Mock.signed_in Mock.profile_second_time) Mock.quiet
           [RemoteCall "user_id_from_username"; RemoteCall "user_info";
            waiting 5; Sleep 5; RemoteCall "user_info"]).
Proof. reflexivity. Qed.

(** ** The filesystem *)

Lemma mkdir_chain_keeps target ps : forall m m' q,
  mkdir_chain target ps m = Return m' ->
  is_Some (m !! q) -> m' !! q = m !! q.
Proof.
  induction ps as [|p ps IH]; intros m m' q; cbn [mkdir_chain].
  - by intros [= ->].
  - destruct (m !! p) as [[|]|] eqn:Hp; [by apply IH|discriminate|].
    intros Hrun Hq. rewrite (IH _ _ q Hrun).
    + apply lookup_insert_ne. intros ->. rewrite Hp in Hq. by destruct Hq.
    + rewrite lookup_insert_ne; [done|].
      intros ->. rewrite Hp in Hq. by destruct Hq.
Qed.

Lemma mkdir_chain_other target ps : forall m m' q,
  mkdir_chain target ps m = Return m' ->
  q ∉ ps -> m' !! q = m !! q.
Proof.
  induction ps as [|p ps IH]; intros m m' q; cbn [mkdir_chain].
  - by intros [= ->].
  - intros Hrun Hq. apply not_elem_of_cons in Hq as [Hne Hq].
    destruct (m !! p) as [[|]|] eqn:Hp; [by apply IH|discriminate|].
    rewrite (IH _ _ q Hrun Hq). by apply lookup_insert_ne.
Qed.

Lemma mkdir_chain_dirs target ps : forall m m' q,
  mkdir_chain target ps m = Return m' ->
  q ∈ ps -> m' !! q = Some Dir.
Proof.
  induction ps as [|p ps IH]; intros m m' q; cbn [mkdir_chain].
  - intros _ Hq. by apply elem_of_nil in Hq.
  - intros Hrun Hq. apply elem_of_cons in Hq as [->|Hq].
    + destruct (m !! p) as [[|]|] eqn:Hp; [|discriminate|].
      * rewrite (mkdir_chain_keeps _ _ _ _ p Hrun); [done|]. by rewrite Hp.
      * rewrite (mkdir_chain_keeps _ _ _ _ p Hrun).
        -- apply lookup_insert_eq.
        -- rewrite lookup_insert_eq. eauto.
    + destruct (m !! p) as [[|]|] eqn:Hp; [|discriminate|]; by eapply IH.
Qed.

(** [mkdir] along the chain succeeds when no regular file is in the way. *)
Lemma mkdir_chain_succeeds target ps : forall m,
  (forall q, q ∈ ps -> forall c k, m !! q <> Some (File c k)) ->
  exists m', mkdir_chain target ps m = Return m'.
Proof.
  induction ps as [|p ps IH]; intros m Hfree; cbn [mkdir_chain]; [eauto|].
  destruct (m !! p) as [[|c k]|] eqn:Hp.
  - apply IH. intros q Hq. apply Hfree. by right.
  - exfalso. by apply (Hfree p (list_elem_of_here _ _) c k).
  - apply IH. intros q Hq c k.
    destruct (decide (p = q)) as [->|Hne].
    + by rewrite lookup_insert_eq.
    + rewrite lookup_insert_ne by done. apply Hfree. by right.
Qed.

Lemma ancestors_and_self_self p : p <> [] -> p ∈ ancestors_and_self p.
Proof.
  intros Hp. unfold ancestors_and_self. apply list_elem_of_fmap.
  exists (length p). split; [by rewrite firstn_all|].
  apply elem_of_seq. destruct p; [done|cbn; lia].
Qed.

Lemma ancestors_and_self_shorter p q :
  q ∈ ancestors_and_self p -> (length q <= length p)%nat.
Proof.
  unfold ancestors_and_self. intros Hq.
  apply list_elem_of_fmap in Hq as (n & -> & _). rewrite length_take. lia.
Qed.

Lemma parent_shorter p : p <> [] -> (length (parent p) < length p)%nat.
Proof.
  intros Hp. unfold parent. rewrite removelast_firstn_len, length_take.
  destruct p; [done|cbn; lia].
Qed.

(** ** Saving the session *)

Lemma stat_nonroot f p : p <> [] -> stat f p = nodes f !! p.
Proof. intros Hp. unfold stat. by destruct p. Qed.

Section Save.

Context {L : Instagrapi}.
Variable session_file : path.

(** A save that nothing hinders writes the serialised client, leaves the
    file with mode [0o600] in an existing parent directory, and says so. *)
Lemma save_session_unhindered (client : Client) (w : World) :
  save_unhindered session_file (fs w) = true ->
  exists f',
    _save_session session_file client w
      = (Return tt,
         mkWorld f' (remote w) (trace w ++ saved session_file)
                 (sm_client w) (ic_client w))
    /\ stat f' session_file = Some (File (json_dumps client) mode_0o600)
    /\ stat f' (parent session_file) = Some Dir
    /\ denied f' = denied (fs w).
Proof.
  unfold save_unhindered. intros H.
  apply andb_prop in H as [H Hdir]. apply andb_prop in H as [H Hanc].
  apply andb_prop in H as [H Hch]. apply andb_prop in H as [Hmk Hwr].
  apply bool_decide_eq_true_1 in Hmk, Hwr, Hch.
  assert (Hsf : session_file <> []).
  { intros Heq. rewrite Heq in Hdir. discriminate. }
  pose proof (parent_shorter session_file Hsf) as Hshort.
  destruct (mkdir_chain_succeeds (parent session_file)
              (ancestors_and_self (parent session_file)) (nodes (fs w)))
    as [m1 Hm1].
  { intros q Hq c k Hfile. rewrite forallb_forall in Hanc.
    apply list_elem_of_In in Hq. specialize (Hanc q Hq).
    by rewrite Hfile in Hanc. }
  assert (Hparent : forall m' d,
             (forall q, q <> session_file -> m' !! q = m1 !! q) ->
             stat (mkFS m' d) (parent session_file) = Some Dir).
  { intros m' d Hm'. destruct (decide (parent session_file = [])) as [Hp|Hp].
    - by rewrite Hp.
    - rewrite stat_nonroot by done. cbn [nodes]. rewrite Hm'.
      + eapply mkdir_chain_dirs; [done|]. by apply ancestors_and_self_self.
      + intros Heq. rewrite Heq in Hshort. lia. }
  assert (Hsame : m1 !! session_file = nodes (fs w) !! session_file).
  { eapply mkdir_chain_other; [done|]. intros Hin.
    apply ancestors_and_self_shorter in Hin. lia. }
  rewrite stat_nonroot in Hdir by done.
  unfold _save_session, try_except, dump_settings.
  unfold bind at 1. unfold syscall at 1, fs_mkdir_p. rewrite Hmk, Hm1.
  unfold bind at 1. unfold syscall at 1, fs_write. cbn [fs denied].
  rewrite Hwr, (Hparent m1) by done. rewrite stat_nonroot by done.
  cbn [nodes]. rewrite Hsame.
  destruct (nodes (fs w) !! session_file) as [[|old k]|] eqn:Hold;
    [discriminate| |];
    (unfold bind at 1; unfold syscall at 1, fs_chmod; cbn [fs denied];
     rewrite Hch, stat_nonroot by done; cbn [nodes];
     rewrite lookup_insert_eq, insert_insert_eq;
     eexists; split;
       [unfold info_message, emit, saved; cbn;
        rewrite <- !app_assoc; reflexivity|];
     split; [by rewrite stat_nonroot by done; cbn; rewrite lookup_insert_eq|];
     split; [|done];
     apply Hparent; intros q Hq; by rewrite lookup_insert_ne).
Qed.

End Save.

(** C5, as the code has it: [_save_session] never raises.  When one of
    its three filesystem calls fails, the error is reported on the console
    and the save returns normally; the calls made before stay made, none
    is made again, and nothing reaches the caller. *)
Theorem save_session_reports_and_returns {L : Instagrapi} session_file
    (client : Client) (w : World) :
  exists w' new,
    _save_session session_file client w = (Return tt, w')
    /\ trace w' = trace w ++ new
    /\ remote w' = remote w
    /\ (forall e f1,
          fs_mkdir_p (parent session_file) (fs w) = (Raise e, f1) ->
          new = [Syscall OpMkdir (parent session_file); save_failed e]
          /\ fs w' = f1)
    /\ (forall e f1 f2,
          fs_mkdir_p (parent session_file) (fs w) = (Return tt, f1) ->
          fs_write session_file (json_dumps client) f1 = (Raise e, f2) ->
          new = [Syscall OpMkdir (parent session_file);
                 Syscall OpWrite session_file; save_failed e]
          /\ fs w' = f2)
    /\ (forall e f1 f2 f3,
          fs_mkdir_p (parent session_file) (fs w) = (Return tt, f1) ->
          fs_write session_file (json_dumps client) f1 = (Return tt, f2) ->
          fs_chmod session_file mode_0o600 f2 = (Raise e, f3) ->
          new = [Syscall OpMkdir (parent session_file);
                 Syscall OpWrite session_file;
                 Syscall OpChmod session_file; save_failed e]
          /\ fs w' = f3)
    /\ (forall f1 f2 f3,
          fs_mkdir_p (parent session_file) (fs w) = (Return tt, f1) ->
          fs_write session_file (json_dumps client) f1 = (Return tt, f2) ->
          fs_chmod session_file mode_0o600 f2 = (Return tt, f3) ->
          new = saved session_file /\ fs w' = f3).
Proof.
  unfold _save_session, try_except, dump_settings.
  unfold bind at 1. unfold syscall at 1.
  destruct (fs_mkdir_p (parent session_file) (fs w)) as [[[]|e1] f1] eqn:Hmk.
  2:{ eexists _, _. split; [reflexivity|]. cbn.
      split; [by rewrite <- app_assoc|]. split; [done|].
      repeat split; intros; same_run; done. }
  unfold bind at 1. unfold syscall at 1. cbn [fs].
  destruct (fs_write session_file (json_dumps client) f1)
    as [[[]|e2] f2] eqn:Hwr.
  2:{ eexists _, _. split; [reflexivity|]. cbn.
      split; [by rewrite <- !app_assoc|]. split; [done|].
      repeat split; intros; same_run; done. }
  unfold bind at 1. unfold syscall at 1. cbn [fs].
  destruct (fs_chmod session_file mode_0o600 f2) as [[[]|e3] f3] eqn:Hch.
  2:{ eexists _, _. split; [reflexivity|]. cbn.
      split; [by rewrite <- !app_assoc|]. split; [done|].
      repeat split; intros; same_run; done. }
  eexists _, _. split; [reflexivity|]. cbn.
  split; [by rewrite <- !app_assoc|]. split; [done|].
  repeat split; intros; same_run; done.
Qed.

Lemma save_session_reports_and_returns_witness :
  exists w',
    _save_session (L := Mock.mock) Mock.session_file "{new}"
      (Mock.start Mock.full_home Mock.quiet) = (Return tt, w')
    /\ trace w' = [Syscall OpMkdir (parent Mock.session_file);
                   Syscall OpWrite Mock.session_file;
                   save_failed Mock.disk_full]
    /\ fs w' = Mock.full_home.
Proof.
  destruct (save_session_reports_and_returns (L := Mock.mock)
              Mock.session_file "{new}"
              (Mock.start Mock.full_home Mock.quiet))
    as (w' & new & Hrun & Htrace & _ & _ & Hwrite & _).
  destruct (Hwrite Mock.disk_full Mock.full_home Mock.full_home
              eq_refl eq_refl) as [Hnew Hfs].
  exists w'. rewrite Htrace, Hnew. done.
Defined.

(** C5, as the claim has it, fails: with the disk full the write of the
    session file raises, yet the save returns normally, no exception
    reaches the caller, and no file is left. *)
Lemma save_session_swallows_disk_full :
  fs_write Mock.session_file "{new}" Mock.full_home
    = (Raise Mock.disk_full, Mock.full_home)
  /\ fst (_save_session (L := Mock.mock) Mock.session_file "{new}"
            (Mock.start Mock.full_home Mock.quiet)) = Return tt
  /\ fst (_save_session (L := Mock.mock) Mock.session_file "{new}"
            (Mock.start Mock.full_home Mock.quiet)) <> Raise Mock.disk_full
  /\ stat (fs (snd (_save_session (L := Mock.mock) Mock.session_file "{new}"
                      (Mock.start Mock.full_home Mock.quiet))))
          Mock.session_file = None.
Proof. repeat split; try reflexivity. discriminate. Qed.

(** C8: a save that the filesystem does not hinder, followed by a load,
    gives back the client that was saved, for every client the
    serialisation can read back; after the save the session file has
    mode [0o600] and its parent directory exists, whether or not it
    existed before. *)
Theorem save_then_load {L : Instagrapi} session_file (client : Client)
    (w : World) :
  save_unhindered session_file (fs w) = true ->
  denied (fs w) OpRead session_file = None ->
  json_loads (json_dumps client) = Some client ->
  exists w1,
    _save_session session_file client w = (Return tt, w1)
    /\ fst (load_settings session_file w1) = Return client
    /\ stat (fs w1) session_file
       = Some (File (json_dumps client) mode_0o600)
    /\ stat (fs w1) (parent session_file) = Some Dir.
Proof.
  intros Hsave Hread Hjson.
  destruct (save_session_unhindered session_file client w Hsave)
    as (f' & Hrun & Hfile & Hparent & Hdenied).
  eexists. split; [exact Hrun|]. cbn [fs]. split; [|done].
  unfold load_settings, bind, syscall, fs_read. cbn [fs].
  by rewrite Hdenied, Hread, Hfile, Hjson.
Qed.

Lemma save_then_load_witness :
  exists w1,
    _save_session (L := Mock.mock) ["home"; "ana"; "cfg"; "session.json"]
      "{new}" (Mock.start Mock.empty_home Mock.quiet) = (Return tt, w1)
    /\ fst (load_settings ["home"; "ana"; "cfg"; "session.json"] w1)
       = Return "{new}"
    /\ stat (fs w1) ["home"; "ana"; "cfg"; "session.json"]
       = Some (File "{new}" mode_0o600)
    /\ stat (fs w1) (parent ["home"; "ana"; "cfg"; "session.json"])
       = Some Dir.
Proof.
  apply (save_then_load (L := Mock.mock)
           ["home"; "ana"; "cfg"; "session.json"] "{new}"
           (Mock.start Mock.empty_home Mock.quiet)); reflexivity.
Defined.

(** ** Login *)

(** C10: a login that succeeds by reusing the stored session leaves the
    filesystem exactly as it was: the session file is read and nothing is
    written, whatever the client's state after the login call. *)
Theorem login_reuse_leaves_file {L : Instagrapi} session_file
    username password (w : World) text c1 c2 s :
  fs_exists session_file (fs w) = true ->
  fs_read session_file (fs w) = Return text ->
  json_loads text = Some c1 ->
  lib_login username password c1 (remote w) = (Return tt, c2, s) ->
  exists w',
    login session_file username password w = (Return c2, w')
    /\ fs w' = fs w
    /\ trace w' = trace w ++ reused session_file username
    /\ read_only (reused session_file username) = true
    /\ sm_client w' = Some c2.
Proof.
  intros Hex Hread Hjson Hlogin.
  unfold login. unfold bind at 1, path_exists. rewrite Hex.
  unfold bind at 1. unfold reuse_session. unfold bind at 1.
  unfold attempt, load_settings. unfold bind at 1, syscall at 1.
  rewrite Hread, Hjson. unfold ret at 1.
  unfold bind at 1, info_message at 1, emit at 1. cbn [fs remote trace].
  unfold bind at 1, client_login. cbn [fs remote trace]. rewrite Hlogin.
  cbn. eexists. split; [reflexivity|]. cbn.
  split; [done|]. split; [by rewrite <- !app_assoc|]. done.
Qed.

Lemma login_reuse_leaves_file_witness :
  exists w',
    login (L := Mock.mock) Mock.session_file "ana" "secret"
      (Mock.start (Mock.old_home Mock.no_denial) Mock.accepting)
      = (Return "{session of ana}", w')
    /\ fs w' = Mock.old_home Mock.no_denial
    /\ trace w' = reused Mock.session_file "ana"
    /\ read_only (reused Mock.session_file "ana") = true
    /\ sm_client w' = Some "{session of ana}".
Proof.
  apply (login_reuse_leaves_file (L := Mock.mock) Mock.session_file
           "ana" "secret"
           (Mock.start (Mock.old_home Mock.no_denial) Mock.accepting)
           "{old}" "{old}" "{session of ana}" Mock.quiet); reflexivity.
Defined.




(** The repeated login is made on the client that was filled from the
    stored session, not on a new one: a service that accepts the
    credentials on a new client and rejects them on a client that carries
    the old session makes [login] fail. *)
Lemma login_fallback_reuses_the_client :
  Mock.only_new "ana" "secret" (Client_new (Instagrapi := Mock.mock))
    = (Return tt, "{session of ana}")
  /\ fst (login (L := Mock.mock) Mock.session_file "ana" "secret"
            (Mock.start (Mock.old_home Mock.no_denial) Mock.strict))
     = Raise Mock.login_required.
Proof. split; reflexivity. Qed.

(** ** The handle *)

(** [is_authenticated] never raises. *)
Lemma is_authenticated_never_raises {L : Instagrapi} session_file
    (w : World) :
  exists b w1, is_authenticated session_file w = (Return b, w1).
Proof.
  unfold is_authenticated, bind at 1, path_exists.
  destruct (fs_exists session_file (fs w)); cbn [negb]; [|by eexists _, _].
  unfold try_except.
  match goal with |- context [match ?r with _ => _ end] => destruct r as [[?|?] ?] end;
    by eexists _, _.
Qed.

(** C6, as the code has it: [get_client] raises [LoginRequired] whenever
    [is_authenticated] is false.  Otherwise it loads the session and
    fetches the timeline feed; when that raises [LoginRequired], the
    expiry is reported and the same exception is raised again, with no
    login attempted; when the feed is fetched, the client is returned.
    Both failures have the class [LoginRequired]. *)
Theorem get_client_login_required {L : Instagrapi} session_file (w : World) :
  (forall w1,
      is_authenticated session_file w = (Return false, w1) ->
      get_client session_file w = (Raise not_authenticated, w1))
  /\ (forall w1 text c e s,
      is_authenticated session_file w = (Return true, w1) ->
      fs_read session_file (fs w1) = Return text ->
      json_loads text = Some c ->
      lib_get_timeline_feed c (remote w1) = (Raise e, s) ->
      exn_cls e = LoginRequired ->
      get_client session_file w
        = (Raise e, after w1 s (expired session_file))
      /\ remote_calls (expired session_file) = ["get_timeline_feed"]
      /\ exn_cls e = exn_cls not_authenticated)
  /\ (forall w1 text c feed s,
      is_authenticated session_file w = (Return true, w1) ->
      fs_read session_file (fs w1) = Return text ->
      json_loads text = Some c ->
      lib_get_timeline_feed c (remote w1) = (Return feed, s) ->
      get_client session_file w
        = (Return c,
           after w1 s [Syscall OpRead session_file;
                       RemoteCall "get_timeline_feed"])).
Proof.
  split; [|split].
  - intros w1 Hauth. unfold get_client, bind. by rewrite Hauth.
  - intros w1 text c e s Hauth Hread Hjson Hfeed He.
    split; [|split; [reflexivity|by rewrite He]].
    unfold get_client. unfold bind at 1. rewrite Hauth. cbn [negb].
    unfold bind at 1, load_settings. unfold bind at 1, syscall at 1.
    rewrite Hread, Hjson. unfold ret at 1.
    unfold bind at 1, try_except. unfold bind at 1.
    rewrite (remote_call_run "get_timeline_feed" _ _ (Raise e) s)
      by exact Hfeed.
    unfold isinstance. rewrite bool_decide_eq_true_2 by done.
    unfold bind, error_message, emit, raise, after, expired; cbn.
    by rewrite <- !app_assoc.
  - intros w1 text c feed s Hauth Hread Hjson Hfeed.
    unfold get_client. unfold bind at 1. rewrite Hauth. cbn [negb].
    unfold bind at 1, load_settings. unfold bind at 1, syscall at 1.
    rewrite Hread, Hjson. unfold ret at 1.
    unfold bind at 1, try_except. unfold bind at 1.
    rewrite (remote_call_run "get_timeline_feed" _ _ (Return feed) s)
      by exact Hfeed.
    unfold ret, after; cbn. by rewrite <- !app_assoc.
Qed.

Lemma get_client_login_required_witness :
  get_client (L := Mock.mock) Mock.session_file
    (Mock.start Mock.empty_home Mock.quiet)
    = (Raise not_authenticated, Mock.start Mock.empty_home Mock.quiet)
  /\ fst (get_client (L := Mock.mock) Mock.session_file
            (Mock.start (Mock.old_home Mock.no_denial) Mock.expiring))
     = Raise Mock.login_required.
Proof.
  split.
  - apply (proj1 (get_client_login_required (L := Mock.mock)
                    Mock.session_file
                    (Mock.start Mock.empty_home Mock.quiet))).
    reflexivity.
  - destruct (proj1 (proj2 (get_client_login_required (L := Mock.mock)
                              Mock.session_file
                              (Mock.start (Mock.old_home Mock.no_denial)
                                          Mock.expiring)))
                _ "{old}" "{old}" Mock.login_required Mock.quiet
                eq_refl eq_refl eq_refl eq_refl eq_refl) as [Hrun _].
    by rewrite Hrun.
Defined.

(** C6, as the claim has it, fails: the error raised for an expired
    session has the class of the error raised when not authenticated. *)
Lemma get_client_expired_same_class :
  fst (get_client (L := Mock.mock) Mock.session_file
         (Mock.start Mock.empty_home Mock.quiet))
    = Raise (Exn LoginRequired "Not authenticated. Please login first.")
  /\ fst (get_client (L := Mock.mock) Mock.session_file
            (Mock.start (Mock.old_home Mock.no_denial) Mock.expiring))
     = Raise (Exn LoginRequired "login_required")
  /\ exn_cls (Exn LoginRequired "login_required")
     = exn_cls (Exn LoginRequired "Not authenticated. Please login first.").
Proof. repeat split; reflexivity. Qed.

(** ** Posting a photo *)

(** C9, as the code has it: [post_photo] checks that the file exists and
    that its extension, in lower case, is [.jpg], [.jpeg] or [.png]
    before it touches the client.  A file that fails a check is reported
    and [False] is returned, with no remote call and the remote service
    untouched.  An upload that goes through returns [True]; the media
    identifier appears in the success line only. *)
Theorem post_photo_checks_then_uploads {L : Instagrapi} session_file home cwd
    photo_path caption (w : World) photo_file :
  expanduser home (Path photo_path) = Return photo_file ->
  (fst (pypath_exists cwd photo_file w) = Return false ->
   post_photo session_file home cwd photo_path caption w
     = (Return false, after w (remote w) [photo_not_found photo_path])
   /\ remote_calls [photo_not_found photo_path] = [])
  /\ (fst (pypath_exists cwd photo_file w) = Return true ->
      lower (suffix photo_file) ∉ allowed_suffixes ->
      post_photo session_file home cwd photo_path caption w
        = (Return false, after w (remote w) [photo_wrong_format])
      /\ remote_calls [photo_wrong_format] = [])
  /\ (fst (pypath_exists cwd photo_file w) = Return true ->
      lower (suffix photo_file) ∈ allowed_suffixes ->
      forall c w1 media s,
        client session_file
          (after w (remote w) [Info ("Uploading photo: " +:+ name photo_file)])
          = (Return c, w1) ->
        lib_photo_upload c photo_file caption (remote w1) = (Return media, s) ->
        post_photo session_file home cwd photo_path caption w
          = (Return true, after w1 s (uploaded media))).
Proof.
  intros Hexp.
  assert (Hrun : forall b, fst (pypath_exists cwd photo_file w) = Return b ->
                           pypath_exists cwd photo_file w = (Return b, w)).
  { unfold pypath_exists. cbn. by intros b [= ->]. }
  split; [|split].
  - intros Hmissing. split; [|done].
    unfold post_photo, try_except. unfold bind at 1, lift at 1.
    rewrite Hexp. unfold bind at 1. rewrite (Hrun _ Hmissing). reflexivity.
  - intros Hpresent Hsuffix. split; [|done].
    unfold post_photo, try_except. unfold bind at 1, lift at 1.
    rewrite Hexp. unfold bind at 1. rewrite (Hrun _ Hpresent).
    rewrite bool_decide_eq_false_2 by done. reflexivity.
  - intros Hpresent Hsuffix c w1 media s Hclient Hupload.
    unfold post_photo, try_except. unfold bind at 1, lift at 1.
    rewrite Hexp. unfold bind at 1. rewrite (Hrun _ Hpresent).
    rewrite bool_decide_eq_true_2 by done. cbn [negb].
    unfold bind at 1, info_message at 1, emit at 1.
    unfold after in Hclient. unfold bind at 1. rewrite Hclient.
    unfold bind at 1. unfold _retry_on_rate_limit, max_retries. cbn [seq].
    rewrite (retry_loop_returns _ _ _ _ _ _ _ _ Hupload).
    unfold bind, success_message, emit, ret, after, uploaded; cbn.
    by rewrite <- !app_assoc.
Qed.

Lemma post_photo_checks_then_uploads_witness :
  post_photo (L := Mock.mock) Mock.session_file Mock.home Mock.cwd
    "~/cat.gif" "my cat" (Mock.at_pictures Mock.uploading)
    = (Return false,
       after (Mock.at_pictures Mock.uploading) Mock.uploading
             [photo_wrong_format])
  /\ post_photo (L := Mock.mock) Mock.session_file Mock.home Mock.cwd
       "dog.jpg" "my dog" (Mock.at_pictures Mock.uploading)
     = (Return false,
        after (Mock.at_pictures Mock.uploading) Mock.uploading
              [photo_not_found "dog.jpg"])
  /\ fst (post_photo (L := Mock.mock) Mock.session_file Mock.home Mock.cwd
            "cat.JPG" "my cat" (Mock.at_pictures Mock.uploading))
     = Return true.
Proof.
  split; [|split].
  - destruct (post_photo_checks_then_uploads (L := Mock.mock)
                Mock.session_file Mock.home Mock.cwd "~/cat.gif" "my cat"
                (Mock.at_pictures Mock.uploading)
                (mkPath true ["home"; "ana"; "cat.gif"]) eq_refl)
      as (_ & Hformat & _).
    apply Hformat; [reflexivity|].
    refine (bool_decide_eq_false_1 _ _). reflexivity.
  - destruct (post_photo_checks_then_uploads (L := Mock.mock)
                Mock.session_file Mock.home Mock.cwd "dog.jpg" "my dog"
                (Mock.at_pictures Mock.uploading)
                (mkPath false ["dog.jpg"]) eq_refl)
      as (Hmissing & _).
    apply Hmissing. reflexivity.
  - destruct (post_photo_checks_then_uploads (L := Mock.mock)
                Mock.session_file Mock.home Mock.cwd "cat.JPG" "my cat"
                (Mock.at_pictures Mock.uploading)
                (mkPath false ["cat.JPG"]) eq_refl)
      as (_ & _ & Hupload).
    assert (Hsuffix : lower (suffix (mkPath false ["cat.JPG"]))
                      ∈ allowed_suffixes).
    { refine (bool_decide_eq_true_1 _ _). reflexivity. }
    rewrite (Hupload eq_refl Hsuffix
               "{session}" _ (mkMedia "3141") Mock.quiet eq_refl eq_refl).
    reflexivity.
Defined.

(** C9, as the claim has it, fails: an upload that goes through makes
    [post_photo] return the boolean [True], not the identifier of the
    media; the identifier is printed and dropped. *)
Lemma post_photo_returns_a_boolean :
  post_photo (L := Mock.mock) Mock.session_file Mock.home Mock.cwd
    "cat.JPG" "my cat" (Mock.at_pictures Mock.uploading)
    = (Return true,
       after (Mock.at_pictures Mock.uploading) Mock.quiet
             (Info "Uploading photo: cat.JPG" :: uploaded (mkMedia "3141")))
  /\ PBool true <> PStr (media_pk (mkMedia "3141")).
Proof. split; [reflexivity|discriminate]. Qed.

(** * Further properties of the code *)

(** ** Running the steps *)

Section Steps.

Context {L : Instagrapi}.
Variable session_file : path.

Lemma after_nothing (w : World) : after w (remote w) [] = w.
Proof. destruct w. unfold after; cbn. by rewrite app_nil_r. Qed.

Lemma load_settings_run (w : World) text c :
  fs_read session_file (fs w) = Return text ->
  json_loads text = Some c ->
  load_settings session_file w
    = (Return c, after w (remote w) [Syscall OpRead session_file]).
Proof.
  intros Hread Hjson. unfold load_settings, bind, syscall.
  by rewrite Hread, Hjson.
Qed.

Lemma load_settings_unreadable (w : World) e :
  fs_read session_file (fs w) = Raise e ->
  load_settings session_file w
    = (Raise e, after w (remote w) [Syscall OpRead session_file]).
Proof. intros Hread. unfold load_settings, bind, syscall. by rewrite Hread. Qed.

Lemma load_settings_corrupt (w : World) text :
  fs_read session_file (fs w) = Return text ->
  json_loads text = None ->
  load_settings session_file w
    = (Raise (Exn JSONDecodeError (path_str session_file)),
       after w (remote w) [Syscall OpRead session_file]).
Proof.
  intros Hread Hjson. unfold load_settings, bind, syscall.
  by rewrite Hread, Hjson.
Qed.

Lemma is_authenticated_absent (w : World) :
  fs_exists session_file (fs w) = false ->
  is_authenticated session_file w = (Return false, w).
Proof.
  intros Hex. unfold is_authenticated, bind, path_exists. by rewrite Hex.
Qed.

Lemma is_authenticated_load_fails (w : World) e :
  fs_exists session_file (fs w) = true ->
  load_settings session_file w
    = (Raise e, after w (remote w) [Syscall OpRead session_file]) ->
  is_authenticated session_file w
    = (Return false, after w (remote w) [Syscall OpRead session_file]).
Proof.
  intros Hex Hload. unfold is_authenticated. unfold bind at 1, path_exists.
  rewrite Hex. cbn [negb]. unfold try_except. unfold bind at 1.
  by rewrite Hload.
Qed.

Lemma is_authenticated_probe (w : World) text c r s :
  fs_exists session_file (fs w) = true ->
  fs_read session_file (fs w) = Return text ->
  json_loads text = Some c ->
  lib_account_info c (remote w) = (r, s) ->
  is_authenticated session_file w
    = (Return (if r is Return _ then true else false),
       after w s [Syscall OpRead session_file; RemoteCall "account_info"]).
Proof.
  intros Hex Hread Hjson Hprobe. unfold is_authenticated.
  unfold bind at 1, path_exists. rewrite Hex. cbn [negb].
  unfold try_except. unfold bind at 1.
  rewrite (load_settings_run _ _ _ Hread Hjson).
  unfold bind at 1.
  rewrite (remote_call_run "account_info" _ _ r s) by exact Hprobe.
  rewrite after_after. by destruct r.
Qed.

End Steps.

(** ** Checking the session *)

Section Checks.

Context {L : Instagrapi}.
Variable session_file : path.

Lemma load_settings_shape (w : World) :
  exists r, load_settings session_file w
            = (r, after w (remote w) [Syscall OpRead session_file]).
Proof.
  destruct (fs_read session_file (fs w)) as [text|e] eqn:Hread.
  - destruct (json_loads text) as [c|] eqn:Hjson.
    + eexists. by apply load_settings_run with text.
    + eexists. by apply load_settings_corrupt with text.
  - eexists. by apply load_settings_unreadable.
Qed.

(** [is_authenticated] returns a verdict, leaves the files alone, and
    makes the account probe at most once. *)
Lemma is_authenticated_shape (w : World) :
  exists b s new,
    is_authenticated session_file w = (Return b, after w s new)
    /\ (new = [] \/ new = [Syscall OpRead session_file]
        \/ new = [Syscall OpRead session_file; RemoteCall "account_info"]).
Proof.
  destruct (fs_exists session_file (fs w)) eqn:Hex.
  2:{ exists false, (remote w), []. rewrite after_nothing.
      split; [by apply is_authenticated_absent|by left]. }
  destruct (fs_read session_file (fs w)) as [text|e] eqn:Hread.
  2:{ exists false, (remote w), [Syscall OpRead session_file].
      split; [|by right; left].
      eapply is_authenticated_load_fails; [done|].
      by apply load_settings_unreadable. }
  destruct (json_loads text) as [c|] eqn:Hjson.
  2:{ exists false, (remote w), [Syscall OpRead session_file].
      split; [|by right; left].
      eapply is_authenticated_load_fails; [done|].
      by apply load_settings_corrupt with text. }
  destruct (lib_account_info c (remote w)) as [r s] eqn:Hprobe.
  eexists _, s, _. split; [|by right; right].
  by apply is_authenticated_probe with text c.
Qed.

End Checks.



(** [get_client] leaves the files alone, whatever its result. *)
Lemma get_client_shape {L : Instagrapi} session_file (w : World) :
  exists r s new, get_client session_file w = (r, after w s new).
Proof.
  destruct (is_authenticated_shape session_file w)
    as (b & s0 & new0 & Hauth & _).
  unfold get_client. unfold bind at 1. rewrite Hauth.
  destruct b; cbn [negb]; [|by eexists _, _, _].
  unfold bind at 1.
  destruct (load_settings_shape session_file (after w s0 new0))
    as (r1 & Hload).
  rewrite Hload, after_after. cbn [remote after].
  destruct r1 as [c|e]; [|by eexists _, _, _].
  unfold bind at 1, try_except. unfold bind at 1.
  destruct (lib_get_timeline_feed c s0) as [r2 s2] eqn:Hfeed.
  rewrite (remote_call_run "get_timeline_feed" _ _ r2 s2) by exact Hfeed.
  rewrite after_after.
  destruct r2 as [feed|e]; cbn.
  - eexists _, _, _. unfold after; cbn. by rewrite <- !app_assoc.
  - destruct (isinstance e LoginRequired); cbn.
    + eexists _, _, _. unfold after; cbn. by rewrite <- !app_assoc.
    + by eexists _, _, _.
Qed.

(** X2: [get_current_username] never raises and never touches a file.
    It returns a name only when [get_client] gave a client and the profile
    call on it succeeded, and then it is the name of that profile; every
    failure on the way becomes [None]. *)
Theorem get_current_username_best_effort {L : Instagrapi} session_file
    (w : World) :
  exists r s new,
    get_current_username session_file w = (Return r, after w s new)
    /\ (forall name, r = Some name ->
        exists c w1 u s1,
          get_client session_file w = (Return c, w1)
          /\ lib_user_info c (client_user_id c) (remote w1) = (Return u, s1)
          /\ user_username u = name)
    /\ (forall e w1, get_client session_file w = (Raise e, w1) ->
        r = None /\ after w s new = w1).
Proof.
  destruct (get_client_shape session_file w) as (r0 & s0 & new0 & Hgc).
  unfold get_current_username, try_except. unfold bind at 1. rewrite Hgc.
  destruct r0 as [c|e].
  2:{ exists None, s0, new0. split; [done|]. split; [done|].
      by intros e' w1 [= <- <-]. }
  unfold bind at 1.
  destruct (lib_user_info c (client_user_id c) s0) as [r1 s1] eqn:Hinfo.
  rewrite (remote_call_run "user_info" _ _ r1 s1) by exact Hinfo.
  rewrite after_after. destruct r1 as [u|e]; cbn.
  - eexists _, _, _. split; [reflexivity|]. split; [|done].
    intros name [= <-]. by exists c, (after w s0 new0), u, s1.
  - eexists _, _, _. split; [reflexivity|]. by split.
Qed.

Lemma get_current_username_best_effort_witness :
  exists r s new,
    get_current_username (L := Mock.mock) Mock.session_file
      (Mock.start (Mock.old_home Mock.no_denial) Mock.expiring)
      = (Return r,
         after (Mock.start (Mock.old_home Mock.no_denial) Mock.expiring)
               s new)
    /\ r = None.
Proof.
  destruct (get_current_username_best_effort (L := Mock.mock)
              Mock.session_file
              (Mock.start (Mock.old_home Mock.no_denial) Mock.expiring))
    as (r & s & new & Hrun & _ & Hfail).
  exists r, s, new. split; [exact Hrun|].
  by destruct (Hfail Mock.login_required _ eq_refl).
Defined.

(** ** Logout *)

Lemma fs_unlink_gone session_file f f' :
  fs_unlink session_file f = (Return tt, f') ->
  fs_exists session_file f' = false
  /\ (forall q, q <> session_file -> stat f' q = stat f q).
Proof.
  unfold fs_unlink. destruct (denied f OpUnlink session_file); [done|].
  destruct (stat f session_file) as [[|c k]|] eqn:Hstat; try done.
  intros [= <-].
  assert (Hsf : session_file <> []) by (by intros ->).
  split.
  - unfold fs_exists. rewrite stat_nonroot by done. cbn.
    by rewrite lookup_delete_eq.
  - intros q Hq. destruct q as [|x q]; [done|].
    unfold stat. cbn. by rewrite lookup_delete_ne.
Qed.

(** X3: [logout] removes the session file when it is there and leaves
    every other path as it was; with no session file it only says so; a
    removal that the operating system refuses is reported and the
    exception is raised again, the file staying in place. *)
Theorem logout_removes_session {L : Instagrapi} session_file (w : World) :
  (fs_exists session_file (fs w) = false ->
   logout session_file w
     = (Return tt, after w (remote w) [Info "No active session found"]))
  /\ (forall c k,
      stat (fs w) session_file = Some (File c k) ->
      denied (fs w) OpUnlink session_file = None ->
      exists w',
        logout session_file w = (Return tt, w')
        /\ fs_exists session_file (fs w') = false
        /\ trace w' = trace w ++ [Syscall OpUnlink session_file;
                                  Success "Logged out successfully"]
        /\ (forall q, q <> session_file -> stat (fs w') q = stat (fs w) q))
  /\ (forall e,
      fs_exists session_file (fs w) = true ->
      denied (fs w) OpUnlink session_file = Some e ->
      logout session_file w
        = (Raise e,
           after w (remote w)
                 [Syscall OpUnlink session_file;
                  Error ("Failed to logout: " +:+ exn_msg e)])).
Proof.
  split; [|split].
  - intros Hex. unfold logout, try_except. unfold bind at 1, path_exists.
    by rewrite Hex.
  - intros c k Hstat Hdenied.
    assert (Hex : fs_exists session_file (fs w) = true).
    { unfold fs_exists. by rewrite Hstat. }
    destruct (fs_unlink session_file (fs w)) as [r f'] eqn:Hun.
    assert (r = Return tt) as ->.
    { unfold fs_unlink in Hun. rewrite Hdenied, Hstat in Hun.
      by injection Hun as <- _. }
    destruct (fs_unlink_gone _ _ _ Hun) as [Hgone Hframe].
    unfold logout, try_except. unfold bind at 1, path_exists. rewrite Hex.
    unfold bind at 1, syscall at 1. rewrite Hun. cbn.
    eexists. split; [reflexivity|]. cbn.
    split; [done|]. split; [by rewrite <- app_assoc|done].
  - intros e Hex Hdenied.
    unfold logout, try_except. unfold bind at 1, path_exists. rewrite Hex.
    unfold bind at 1, syscall at 1, fs_unlink. rewrite Hdenied.
    unfold bind, error_message, emit, raise, after; cbn.
    by rewrite <- app_assoc.
Qed.

Lemma logout_removes_session_witness :
  (exists w',
      logout (L := Mock.mock) Mock.session_file
        (Mock.start (Mock.old_home Mock.no_denial) Mock.quiet)
        = (Return tt, w')
      /\ fs_exists Mock.session_file (fs w') = false)
  /\ logout (L := Mock.mock) Mock.session_file
       (Mock.start Mock.empty_home Mock.quiet)
     = (Return tt,
        after (Mock.start Mock.empty_home Mock.quiet) Mock.quiet
              [Info "No active session found"])
  /\ logout (L := Mock.mock) Mock.session_file
       (Mock.start (Mock.old_home Mock.no_unlink) Mock.quiet)
     = (Raise Mock.busy,
        after (Mock.start (Mock.old_home Mock.no_unlink) Mock.quiet)
              Mock.quiet
              [Syscall OpUnlink Mock.session_file;
               Error "Failed to logout: [Errno 16] Device or resource busy"]).
Proof.
  split; [|split].
  - destruct (proj1 (proj2 (logout_removes_session (L := Mock.mock)
                              Mock.session_file
                              (Mock.start (Mock.old_home Mock.no_denial)
                                          Mock.quiet)))
                "{old}" mode_0o600 eq_refl eq_refl)
      as (w' & Hrun & Hgone & _).
    by exists w'.
  - apply (proj1 (logout_removes_session (L := Mock.mock) Mock.session_file
                    (Mock.start Mock.empty_home Mock.quiet))).
    reflexivity.
  - apply (proj2 (proj2 (logout_removes_session (L := Mock.mock)
                           Mock.session_file
                           (Mock.start (Mock.old_home Mock.no_unlink)
                                       Mock.quiet)))
             Mock.busy); reflexivity.
Defined.

(** X4: once [logout] has returned, the session is gone for the rest of
    the run: [is_authenticated] answers [False] without a remote call,
    and [get_client] raises [LoginRequired]. *)
Theorem logout_then_not_authenticated {L : Instagrapi} session_file
    (w w1 : World) :
  logout session_file w = (Return tt, w1) ->
  is_authenticated session_file w1 = (Return false, w1)
  /\ get_client session_file w1 = (Raise not_authenticated, w1).
Proof.
  intros Hrun.
  assert (Hgone : fs_exists session_file (fs w1) = false).
  { revert Hrun. unfold logout, try_except. unfold bind at 1, path_exists.
    destruct (fs_exists session_file (fs w)) eqn:Hex.
    - unfold bind at 1, syscall at 1.
      destruct (fs_unlink session_file (fs w)) as [[[]|e] f'] eqn:Hun; cbn.
      + intros [= <-]. cbn. by destruct (fs_unlink_gone _ _ _ Hun).
      + discriminate.
    - cbn. intros [= <-]. by cbn. }
  pose proof (is_authenticated_absent session_file w1 Hgone) as Hauth.
  split; [done|]. unfold get_client, bind. by rewrite Hauth.
Qed.

Lemma logout_then_not_authenticated_witness :
  exists w1,
    logout (L := Mock.mock) Mock.session_file
      (Mock.start (Mock.old_home Mock.no_denial) Mock.expiring)
      = (Return tt, w1)
    /\ is_authenticated Mock.session_file w1 = (Return false, w1)
    /\ get_client Mock.session_file w1 = (Raise not_authenticated, w1).
Proof.
  eexists. split; [reflexivity|].
  apply (logout_then_not_authenticated (L := Mock.mock) Mock.session_file
           (Mock.start (Mock.old_home Mock.no_denial) Mock.expiring)).
  reflexivity.
Defined.

(** ** More on login *)

Section FreshLogin.

Context {L : Instagrapi}.
Variable session_file : path.

Lemma fresh_login_saves username password (client : Client) (w : World)
      c s :
  lib_login username password client (remote w) = (Return tt, c, s) ->
  save_unhindered session_file (fs w) = true ->
  exists f',
    fresh_login session_file username password client w
      = (Return c,
         mkWorld f' s (trace w ++ logged_in session_file username)
                 (Some c) (ic_client w))
    /\ stat f' session_file = Some (File (json_dumps c) mode_0o600)
    /\ denied f' = denied (fs w).
Proof.
  intros Hlogin Hsave. unfold fresh_login.
  unfold bind at 1, info_message at 1, emit at 1.
  unfold bind at 1, client_login at 1. cbn [fs remote trace].
  rewrite Hlogin. unfold bind at 1.
  match goal with
  | |- context [_save_session session_file c ?w2] =>
      destruct (save_session_unhindered session_file c w2 Hsave)
        as (f' & Hrun & Hfile & _ & Hdenied)
  end.
  rewrite Hrun. cbn. exists f'. split; [|done].
  unfold logged_in. by rewrite <- !app_assoc.
Qed.

Lemma fresh_login_fails username password (client : Client) (w : World)
      e c s :
  lib_login username password client (remote w) = (Raise e, c, s) ->
  exists line,
    fresh_login session_file username password client w
      = (Raise e,
         after w s [Info "Logging in to Instagram..."; RemoteCall "login";
                    Error line])
    /\ (exn_cls e = BadPassword ->
        line = "Invalid password. Please check your credentials.")
    /\ (exn_cls e = TwoFactorRequired ->
        line = "Two-factor authentication is required. Please disable 2FA or use app-specific password.")
    /\ (exn_cls e = ChallengeRequired ->
        line = "Instagram requires additional verification. Please verify your account through the app first.")
    /\ (exn_cls e <> BadPassword ->
        exn_cls e <> TwoFactorRequired ->
        exn_cls e <> ChallengeRequired ->
        line = "Login failed: " +:+ exn_msg e).
Proof.
  intros Hlogin. unfold fresh_login.
  unfold bind at 1, info_message at 1, emit at 1.
  unfold bind at 1, client_login at 1. cbn [fs remote trace].
  rewrite Hlogin. unfold login_failed, isinstance.
  destruct (decide (exn_cls e = BadPassword)) as [Hbp|Hbp];
    [rewrite bool_decide_eq_true_2 by done
    |rewrite bool_decide_eq_false_2 by done;
     destruct (decide (exn_cls e = TwoFactorRequired)) as [Htf|Htf];
       [rewrite bool_decide_eq_true_2 by done
       |rewrite bool_decide_eq_false_2 by done;
        destruct (decide (exn_cls e = ChallengeRequired)) as [Hch|Hch];
          [rewrite bool_decide_eq_true_2 by done
          |rewrite bool_decide_eq_false_2 by done]]];
    (eexists; split;
       [unfold bind, error_message, emit, raise, after; cbn;
        by rewrite <- !app_assoc
       |repeat split; intros; congruence]).
Qed.

End FreshLogin.

(** X5: with no session file, a login that the service accepts makes one
    login call on a new client, writes the session file with mode
    [0o600] when nothing hinders the save, and returns the client. *)
Theorem login_first_time_saves {L : Instagrapi} session_file
    username password (w : World) c s :
  fs_exists session_file (fs w) = false ->
  lib_login username password Client_new (remote w) = (Return tt, c, s) ->
  save_unhindered session_file (fs w) = true ->
  exists w',
    login session_file username password w = (Return c, w')
    /\ stat (fs w') session_file = Some (File (json_dumps c) mode_0o600)
    /\ trace w' = trace w ++ logged_in session_file username
    /\ remote_calls (logged_in session_file username) = ["login"]
    /\ remote w' = s
    /\ sm_client w' = Some c.
Proof.
  intros Hex Hlogin Hsave.
  destruct (fresh_login_saves session_file username password Client_new w
              c s Hlogin Hsave) as (f' & Hrun & Hfile & _).
  unfold login. unfold bind at 1, path_exists. rewrite Hex, Hrun.
  eexists. split; [reflexivity|]. by cbn.
Qed.

Lemma login_first_time_saves_witness :
  exists w',
    login (L := Mock.mock) Mock.session_file "ana" "secret"
      (Mock.start Mock.empty_home Mock.accepting)
      = (Return "{session of ana}", w')
    /\ stat (fs w') Mock.session_file
       = Some (File "{session of ana}" mode_0o600)
    /\ trace w' = logged_in Mock.session_file "ana"
    /\ remote_calls (logged_in Mock.session_file "ana") = ["login"]
    /\ remote w' = Mock.quiet
    /\ sm_client w' = Some "{session of ana}".
Proof.
  apply (login_first_time_saves (L := Mock.mock) Mock.session_file
           "ana" "secret" (Mock.start Mock.empty_home Mock.accepting)
           "{session of ana}" Mock.quiet); reflexivity.
Defined.

(** X6: with no session file, a login that the service refuses raises the
    library's exception unchanged after one line on the console, chosen
    by the class of the exception; nothing is written, no session file
    appears, and the manager keeps no client. *)
Theorem login_failure_writes_nothing {L : Instagrapi} session_file
    username password (w : World) e c s :
  fs_exists session_file (fs w) = false ->
  lib_login username password Client_new (remote w) = (Raise e, c, s) ->
  exists line,
    login session_file username password w
      = (Raise e,
         after w s [Info "Logging in to Instagram..."; RemoteCall "login";
                    Error line])
    /\ (exn_cls e = BadPassword ->
        line = "Invalid password. Please check your credentials.")
    /\ (exn_cls e = TwoFactorRequired ->
        line = "Two-factor authentication is required. Please disable 2FA or use app-specific password.")
    /\ (exn_cls e = ChallengeRequired ->
        line = "Instagram requires additional verification. Please verify your account through the app first.")
    /\ (exn_cls e <> BadPassword ->
        exn_cls e <> TwoFactorRequired ->
        exn_cls e <> ChallengeRequired ->
        line = "Login failed: " +:+ exn_msg e).
Proof.
  intros Hex Hlogin.
  destruct (fresh_login_fails session_file username password Client_new w
              e c s Hlogin) as (line & Hrun & Hlines).
  exists line. split; [|done].
  unfold login. unfold bind at 1, path_exists. by rewrite Hex.
Qed.

Lemma login_failure_writes_nothing_witness :
  login (L := Mock.mock) Mock.session_file "ana" "wrong"
    (Mock.start Mock.empty_home Mock.refusing)
  = (Raise Mock.bad_password,
     after (Mock.start Mock.empty_home Mock.refusing) Mock.quiet
           [Info "Logging in to Instagram..."; RemoteCall "login";
            Error "Invalid password. Please check your credentials."]).
Proof.
  destruct (login_failure_writes_nothing (L := Mock.mock) Mock.session_file
              "ana" "wrong" (Mock.start Mock.empty_home Mock.refusing)
              Mock.bad_password "{}" Mock.quiet eq_refl eq_refl)
    as (line & Hrun & Hbad & _).
  rewrite Hrun. by rewrite (Hbad eq_refl).
Defined.

(** X7: when the session file is there but does not parse, [login] says
    the session is invalid and logs in on the new client, with a single
    login call; the file is then overwritten by the save. *)
Theorem login_corrupt_session_new_client {L : Instagrapi} session_file
    username password (w : World) text k c s :
  stat (fs w) session_file = Some (File text k) ->
  denied (fs w) OpRead session_file = None ->
  json_loads text = None ->
  lib_login username password Client_new (remote w) = (Return tt, c, s) ->
  save_unhindered session_file (fs w) = true ->
  exists w',
    login session_file username password w = (Return c, w')
    /\ stat (fs w') session_file = Some (File (json_dumps c) mode_0o600)
    /\ trace w'
       = trace w ++ [Syscall OpRead session_file;
                     Info "Existing session invalid, creating new one..."]
                 ++ logged_in session_file username
    /\ remote w' = s.
Proof.
  intros Hstat Hdenied Hjson Hlogin Hsave.
  assert (Hex : fs_exists session_file (fs w) = true).
  { unfold fs_exists. by rewrite Hstat. }
  assert (Hread : fs_read session_file (fs w) = Return text).
  { unfold fs_read. by rewrite Hdenied, Hstat. }
  unfold login. unfold bind at 1, path_exists. rewrite Hex.
  unfold bind at 1, reuse_session. unfold bind at 1, attempt.
  rewrite (load_settings_corrupt _ _ _ Hread Hjson). unfold ret at 1.
  unfold bind at 1, info_message at 1, emit at 1. cbn [fs remote trace after].
  match goal with
  | |- context [fresh_login _ _ _ _ ?w2] =>
      destruct (fresh_login_saves session_file username password
                  Client_new w2 c s Hlogin Hsave) as (f' & Hrun & Hfile & _)
  end.
  rewrite Hrun. eexists. split; [reflexivity|]. cbn.
  split; [done|]. split; [by rewrite <- !app_assoc|done].
Qed.

Lemma login_corrupt_session_new_client_witness :
  exists w',
    login (L := Mock.mock) Mock.session_file "ana" "secret"
      (Mock.start Mock.corrupt_home Mock.accepting)
      = (Return "{session of ana}", w')
    /\ stat (fs w') Mock.session_file
       = Some (File "{session of ana}" mode_0o600)
    /\ trace w'
       = [Syscall OpRead Mock.session_file;
          Info "Existing session invalid, creating new one..."]
         ++ logged_in Mock.session_file "ana"
    /\ remote w' = Mock.quiet.
Proof.
  apply (login_corrupt_session_new_client (L := Mock.mock)
           Mock.session_file "ana" "secret"
           (Mock.start Mock.corrupt_home Mock.accepting)
           "not json" mode_0o600 "{session of ana}" Mock.quiet);
    reflexivity.
Defined.

(** ** More on the retry wrapper *)

(** X8: whatever the wrapped capability does, the wrapper calls it at
    least once and at most three times, sleeps exactly once between two
    calls and never after the last, for 5 and then 10 time units, and
    leaves the files alone. *)
Theorem retry_is_bounded {L : Instagrapi} {A} name
    (f : Remote -> outcome A * Remote) (w : World) :
  exists r s new,
    _retry_on_rate_limit (remote_call name f) w = (r, after w s new)
    /\ (1 <= length (remote_calls new) <= 3)%nat
    /\ (length (sleeps new) + 1 = length (remote_calls new))%nat
    /\ (sleeps new = [] \/ sleeps new = [5] \/ sleeps new = [5; 10]).
Proof.
  unfold _retry_on_rate_limit, max_retries. cbn [seq].
  destruct (f (remote w)) as [[v1|e1] s1] eqn:H1.
  { rewrite (retry_loop_returns _ _ _ _ _ _ _ _ H1).
    eexists _, _, _. split; [reflexivity|]. cbn. split; [lia|]. by split; [|left]. }
  destruct (decide (exn_cls e1 = RateLimitError)) as [He1|He1].
  2:{ rewrite (retry_loop_other_error _ _ _ _ _ _ _ _ H1 He1).
      eexists _, _, _. split; [reflexivity|]. cbn. split; [lia|]. by split; [|left]. }
  rewrite (retry_loop_rate_limited _ _ _ _ _ _ _ _ H1 He1)
    by (unfold max_retries; lia).
  destruct (f s1) as [[v2|e2] s2] eqn:H2.
  { rewrite (retry_loop_returns name f 1%nat _ _ _ v2 s2) by done.
    rewrite after_after.
    eexists _, _, _. split; [reflexivity|]. cbn. split; [lia|].
    by split; [|right; left]. }
  destruct (decide (exn_cls e2 = RateLimitError)) as [He2|He2].
  2:{ rewrite (retry_loop_other_error name f 1%nat _ _ _ e2 s2) by done.
      rewrite after_after.
      eexists _, _, _. split; [reflexivity|]. cbn. split; [lia|].
      by split; [|right; left]. }
  rewrite (retry_loop_rate_limited name f 1%nat _ _ _ e2 s2)
    by (done || unfold max_retries; lia).
  rewrite after_after.
  destruct (f s2) as [[v3|e3] s3] eqn:H3.
  { rewrite (retry_loop_returns name f 2%nat _ _ _ v3 s3) by done.
    rewrite after_after.
    eexists _, _, _. split; [reflexivity|]. cbn. split; [lia|].
    by split; [|right; right]. }
  destruct (decide (exn_cls e3 = RateLimitError)) as [He3|He3].
  2:{ rewrite (retry_loop_other_error name f 2%nat _ _ _ e3 s3) by done.
      rewrite after_after.
      eexists _, _, _. split; [reflexivity|]. cbn. split; [lia|].
      by split; [|right; right]. }
  rewrite (retry_loop_exhausted name f 2%nat _ _ _ e3 s3)
    by (done || unfold max_retries; lia).
  rewrite after_after.
  eexists _, _, _. split; [reflexivity|]. cbn. split; [lia|].
  by split; [|right; right].
Qed.

(** X9: the wrapper never returns [None] of its own: when it returns, it
    returns what the wrapped function returned, for every function. *)
Theorem retry_returns_a_result {L : Instagrapi} {A} (func : M A)
    (w w' : World) r :
  _retry_on_rate_limit func w = (Return r, w') ->
  exists v, r = Some v.
Proof.
  intros Hrun. apply retry_never_falls_through in Hrun.
  destruct r; [eauto|done].
Qed.

Lemma retry_returns_a_result_witness :
  exists v : gmap string pyval, Some (∅ : gmap string pyval) = Some v.
Proof.
  apply (retry_returns_a_result
           (remote_call "get_timeline_feed"
              (@lib_get_timeline_feed Mock.mock "{}"))
           (Mock.start Mock.empty_home Mock.feed_third_time)
           (after (Mock.start Mock.empty_home Mock.feed_third_time)
                  Mock.quiet
                  [RemoteCall "get_timeline_feed"; waiting 5; Sleep 5;
                   RemoteCall "get_timeline_feed"; waiting 10; Sleep 10;
                   RemoteCall "get_timeline_feed"])
           (Some ∅)).
  reflexivity.
Defined.

(** ** Searching and looking up users *)




Lemma lstrip_at_plain name :
  String.prefix "@" name = false -> lstrip_at name = name.
Proof.
  destruct name as [|c rest]; [done|]. cbn.
  destruct c as [[] [] [] [] [] [] [] []]; cbn; try done.
  by destruct rest.
Qed.

Lemma lstrip_at_signs n name : lstrip_at (at_signs n name) = lstrip_at name.
Proof. induction n as [|n IH]; [done|]. cbn. exact IH. Qed.

(** X11: [get_user_info] ignores any number of at signs in front of the
    name: the lookup of [@name], [@@name] and [name] is the same run. *)
Theorem get_user_info_ignores_at_signs {L : Instagrapi} session_file n name
    (w : World) :
  String.prefix "@" name = false ->
  get_user_info session_file (at_signs n name) w
  = get_user_info session_file name w
  /\ lstrip_at (at_signs n name) = name.
Proof.
  intros Hplain. unfold get_user_info.
  by rewrite lstrip_at_signs, lstrip_at_plain.
Qed.

Lemma get_user_info_ignores_at_signs_witness :
  get_user_info (L := Mock.mock) Mock.session_file "@@ana"
    (Mock.signed_in Mock.profile_first_time)
  = get_user_info Mock.session_file "ana"
      (Mock.signed_in Mock.profile_first_time)
  /\ lstrip_at "@@ana" = "ana".
Proof.
  apply (get_user_info_ignores_at_signs (L := Mock.mock) Mock.session_file
           2 "ana" (Mock.signed_in Mock.profile_first_time)).
  reflexivity.
Defined.

(** ** More on the feed *)

Lemma collect_posts_length items : forall acc posts,
  collect_posts items acc = Return posts ->
  (length posts <= length acc + length items)%nat.
Proof.
  induction items as [|item items IH]; intros acc posts; cbn [collect_posts].
  - intros [= <-]. cbn. lia.
  - destruct (py_in "media_or_ad" item) as [[]|e]; cbn [obind]; [| |done].
    + destruct (py_getitem "media_or_ad" item) as [post|e]; cbn [obind];
        [|done].
      destruct (make_post post) as [entry|e]; cbn [obind]; [|done].
      intros Hrun. apply IH in Hrun. rewrite length_app in Hrun.
      cbn in *. lia.
    + intros Hrun. apply IH in Hrun. cbn. lia.
Qed.

Lemma slice_items_length v limit items :
  slice_items v limit = Return items ->
  0 <= limit -> (length items <= Z.to_nat limit)%nat.
Proof.
  destruct v; cbn; try done; intros [= <-] Hlimit.
  - rewrite length_map. by apply py_slice_to_length.
  - by apply py_slice_to_length.
Qed.

(** X12: whatever the feed page holds, [get_feed] with a limit that is
    not negative never returns more than [limit] entries. *)
Theorem get_feed_at_most_limit {L : Instagrapi} session_file limit
    (w w' : World) posts :
  0 <= limit ->
  get_feed session_file limit w = (Return posts, w') ->
  (length posts <= Z.to_nat limit)%nat.
Proof.
  intros Hlimit. unfold get_feed, try_except. unfold bind at 1.
  destruct (client session_file w) as [[c|e] w1]; [|by cbn].
  unfold bind at 1.
  destruct (_retry_on_rate_limit _ w1) as [[[feed|]|e] w2]; [| |by cbn].
  - unfold lift.
    destruct (slice_items (feed_items feed) limit) as [items|e] eqn:Hslice;
      cbn [obind]; [|by cbn].
    destruct (collect_posts items []) as [found|e] eqn:Hcollect; [|by cbn].
    intros [= <- _]. apply collect_posts_length in Hcollect.
    apply slice_items_length in Hslice; [|done]. cbn in Hcollect. lia.
  - by cbn.
Qed.

Lemma get_feed_at_most_limit_witness :
  (length (omap media_entry (py_slice_to 5 Mock.page)) <= Z.to_nat 5)%nat.
Proof.
  apply (get_feed_at_most_limit (L := Mock.mock) Mock.session_file 5
           (Mock.signed_in Mock.feed_page)
           (after (Mock.signed_in Mock.feed_page) Mock.quiet
                  [RemoteCall "get_timeline_feed"])
           (omap media_entry (py_slice_to 5 Mock.page)));
    [lia|reflexivity].
Defined.

(** X13: a feed page without the key ["feed_items"] gives the empty
    list, and so does a limit of 0 whatever the items are, malformed ones
    included: the loop body is never entered and nothing fails. *)
Theorem get_feed_nothing_to_show {L : Instagrapi} session_file limit
    (w w1 : World) c feed s :
  client session_file w = (Return c, w1) ->
  lib_get_timeline_feed c (remote w1) = (Return feed, s) ->
  feed !! "feed_items" = None
  \/ (limit = 0 /\ exists items, feed !! "feed_items" = Some (PList items)) ->
  get_feed session_file limit w
    = (Return [], after w1 s [RemoteCall "get_timeline_feed"]).
Proof.
  intros Hc Hfeed Hcase.
  unfold get_feed, try_except. unfold bind at 1. rewrite Hc.
  unfold bind at 1. unfold _retry_on_rate_limit, max_retries. cbn [seq].
  rewrite (retry_loop_returns _ _ _ _ _ _ _ _ Hfeed).
  unfold lift, feed_items.
  destruct Hcase as [Hnone|[-> [items Hitems]]].
  - rewrite Hnone. cbn. unfold py_slice_to.
    destruct (0 <=? limit); by rewrite take_nil.
  - rewrite Hitems. cbn. by rewrite take_0.
Qed.

Lemma get_feed_nothing_to_show_witness :
  get_feed (L := Mock.mock) Mock.session_file 20
    (Mock.signed_in Mock.feed_bare)
    = (Return [],
       after (Mock.signed_in Mock.feed_bare) Mock.quiet
             [RemoteCall "get_timeline_feed"])
  /\ get_feed (L := Mock.mock) Mock.session_file 0
       (Mock.signed_in Mock.feed_malformed)
     = (Return [],
        after (Mock.signed_in Mock.feed_malformed) Mock.quiet
              [RemoteCall "get_timeline_feed"]).
Proof.
  split.
  - apply (get_feed_nothing_to_show (L := Mock.mock) Mock.session_file 20
             (Mock.signed_in Mock.feed_bare) (Mock.signed_in Mock.feed_bare)
             "{session}" {[ "status" := PStr "ok" ]} Mock.quiet);
      [reflexivity|reflexivity|by left].
  - apply (get_feed_nothing_to_show (L := Mock.mock) Mock.session_file 0
             (Mock.signed_in Mock.feed_malformed)
             (Mock.signed_in Mock.feed_malformed)
             "{session}" {[ "feed_items" := PList [PNone] ]} Mock.quiet);
      [reflexivity|reflexivity|].
    right. split; [reflexivity|]. by exists [PNone].
Defined.

(** ** More on posting a photo *)

Lemma string_length_app s1 s2 :
  String.length (s1 +:+ s2) = (String.length s1 + String.length s2)%nat.
Proof.
  induction s1 as [|c s1 IH]; [done|].
  change (String c s1 +:+ s2) with (String c (s1 +:+ s2)).
  cbn [String.length]. by rewrite IH.
Qed.

Lemma lower_app s1 s2 : lower (s1 +:+ s2) = lower s1 +:+ lower s2.
Proof.
  induction s1 as [|c s1 IH]; [done|].
  change (String c s1 +:+ s2) with (String c (s1 +:+ s2)).
  cbn [lower]. by rewrite IH.
Qed.

Lemma after_last_dot_dotless s : dotless s = true -> after_last_dot s = None.
Proof.
  induction s as [|c s IH]; cbn; [done|].
  intros H. apply andb_prop in H as [Hc Hs]. rewrite (IH Hs).
  by destruct (Ascii.eqb c ".").
Qed.

Lemma after_last_dot_extension stem ext :
  dotless ext = true ->
  after_last_dot (stem +:+ "." +:+ ext) = Some ext.
Proof.
  intros Hext. induction stem as [|c stem IH].
  - change ("" +:+ "." +:+ ext) with (String "." ext).
    cbn [after_last_dot]. by rewrite (after_last_dot_dotless _ Hext).
  - change (String c stem +:+ "." +:+ ext)
      with (String c (stem +:+ "." +:+ ext)).
    cbn [after_last_dot]. by rewrite IH.
Qed.

Lemma suffix_of_extension (p : PyPath) stem ext :
  name p = stem +:+ "." +:+ ext ->
  dotless ext = true ->
  ext <> EmptyString ->
  suffix p = if decide (stem = EmptyString) then EmptyString
             else String "." ext.
Proof.
  intros Hname Hdot Hext. unfold suffix. rewrite Hname.
  rewrite (after_last_dot_extension _ _ Hdot).
  rewrite string_length_app.
  change ("." +:+ ext) with (String "." ext). cbn [String.length].
  assert (Hlen : (0 < String.length ext)%nat)
    by (destruct ext; [done|cbn; lia]).
  rewrite (proj2 (Nat.ltb_lt 0 _) Hlen), andb_true_r.
  destruct (decide (stem = EmptyString)) as [->|Hstem].
  - cbn [String.length]. by rewrite (proj2 (Nat.ltb_ge _ _)) by lia.
  - assert ((0 < String.length stem)%nat)
      by (destruct stem; [done|cbn; lia]).
    by rewrite (proj2 (Nat.ltb_lt _ _)) by lia.
Qed.

(** X14: for a file name [stem.ext] whose extension is not empty and has
    no dot, the format check of [post_photo] passes exactly when the
    extension, in lower case, is [jpg], [jpeg] or [png] and the stem is
    not empty; a name that is only a dot and an extension is refused. *)
Theorem format_check_by_extension (p : PyPath) stem ext :
  name p = stem +:+ "." +:+ ext ->
  dotless ext = true ->
  ext <> EmptyString ->
  (stem <> EmptyString ->
   (lower (suffix p) ∈ allowed_suffixes
    <-> lower ext ∈ ["jpg"; "jpeg"; "png"]))
  /\ (stem = EmptyString -> lower (suffix p) ∉ allowed_suffixes).
Proof.
  intros Hname Hdot Hext.
  rewrite (suffix_of_extension p stem ext Hname Hdot Hext).
  unfold allowed_suffixes. split.
  - intros Hstem. rewrite decide_False by done. cbn [lower].
    change (lower_ascii ".") with "."%char.
    rewrite !elem_of_cons, !elem_of_nil.
    generalize (lower ext). intros x.
    split; intros [Hx|[Hx|[Hx|[]]]]; simplify_eq; auto.
  - intros Hstem. rewrite decide_True by done. cbn [lower].
    rewrite !elem_of_cons, elem_of_nil. intros [|[|[|[]]]]; done.
Qed.

Lemma format_check_by_extension_witness :
  (lower (suffix (Path "/home/ana/holiday.v2.JpEg")) ∈ allowed_suffixes
   <-> lower "JpEg" ∈ ["jpg"; "jpeg"; "png"])
  /\ lower (suffix (Path "/home/ana/.png")) ∉ allowed_suffixes.
Proof.
  split.
  - apply (proj1 (format_check_by_extension
                    (Path "/home/ana/holiday.v2.JpEg") "holiday.v2" "JpEg"
                    eq_refl eq_refl ltac:(discriminate)));
      discriminate.
  - apply (proj2 (format_check_by_extension
                    (Path "/home/ana/.png") "" "png"
                    eq_refl eq_refl ltac:(discriminate)));
      reflexivity.
Defined.

(** X15: when the upload is rate limited on all three attempts,
    [post_photo] raises the rate-limit error after 15 time units of
    waiting, and the failure is reported twice: once by the wrapper and
    once by [post_photo] itself. *)
Theorem post_photo_gives_up_when_limited {L : Instagrapi} session_file home
    cwd photo_path caption (w w1 : World) photo_file c e1 e2 e3 s1 s2 s3 :
  expanduser home (Path photo_path) = Return photo_file ->
  fst (pypath_exists cwd photo_file w) = Return true ->
  lower (suffix photo_file) ∈ allowed_suffixes ->
  client session_file
    (after w (remote w) [Info ("Uploading photo: " +:+ name photo_file)])
    = (Return c, w1) ->
  exn_cls e1 = RateLimitError ->
  exn_cls e2 = RateLimitError ->
  exn_cls e3 = RateLimitError ->
  lib_photo_upload c photo_file caption (remote w1) = (Raise e1, s1) ->
  lib_photo_upload c photo_file caption s1 = (Raise e2, s2) ->
  lib_photo_upload c photo_file caption s2 = (Raise e3, s3) ->
  exists new,
    post_photo session_file home cwd photo_path caption w
      = (Raise e3, after w1 s3 new)
    /\ new = [RemoteCall "photo_upload"; waiting 5; Sleep 5;
              RemoteCall "photo_upload"; waiting 10; Sleep 10;
              RemoteCall "photo_upload"; exceeded;
              Error ("Failed to post photo: " +:+ exn_msg e3)]
    /\ fold_right Z.add 0 (sleeps new) = 15.
Proof.
  intros Hexp Hpresent Hsuffix Hclient He1 He2 He3 H1 H2 H3.
  eexists. split; [|split; reflexivity].
  assert (Hrun : pypath_exists cwd photo_file w = (Return true, w)).
  { revert Hpresent. unfold pypath_exists. cbn. by intros [= ->]. }
  unfold post_photo, try_except. unfold bind at 1, lift at 1.
  rewrite Hexp. unfold bind at 1. rewrite Hrun.
  rewrite bool_decide_eq_true_2 by done. cbn [negb].
  unfold bind at 1, info_message at 1, emit at 1.
  unfold after in Hclient. unfold bind at 1. rewrite Hclient.
  unfold bind at 1. unfold _retry_on_rate_limit, max_retries. cbn [seq].
  rewrite (retry_loop_rate_limited _ _ _ _ _ _ _ _ H1 He1)
    by (unfold max_retries; lia).
  rewrite (retry_loop_rate_limited "photo_upload" _ 1%nat _ _ _ e2 s2)
    by (done || unfold max_retries; lia).
  rewrite (retry_loop_exhausted "photo_upload" _ 2%nat _ _ _ e3 s3)
    by (done || unfold max_retries; lia).
  rewrite !after_after.
  unfold bind, error_message, emit, raise, after; cbn.
  by rewrite <- !app_assoc.
Qed.

Lemma post_photo_gives_up_when_limited_witness :
  exists new,
    post_photo (L := Mock.mock) Mock.session_file Mock.home Mock.cwd
      "cat.JPG" "my cat" (Mock.at_pictures (Mock.upload_limited 3))
      = (Raise Mock.rate_limited,
         after (after (Mock.at_pictures (Mock.upload_limited 3))
                      (Mock.upload_limited 3)
                      [Info "Uploading photo: cat.JPG"])
               Mock.quiet new)
    /\ new = [RemoteCall "photo_upload"; waiting 5; Sleep 5;
              RemoteCall "photo_upload"; waiting 10; Sleep 10;
              RemoteCall "photo_upload"; exceeded;
              Error "Failed to post photo: Please wait a few minutes"]
    /\ fold_right Z.add 0 (sleeps new) = 15.
Proof.
  assert (Hsuffix : lower (suffix (mkPath false ["cat.JPG"]))
                    ∈ allowed_suffixes).
  { refine (bool_decide_eq_true_1 _ _). reflexivity. }
  apply (post_photo_gives_up_when_limited (L := Mock.mock)
           Mock.session_file Mock.home Mock.cwd "cat.JPG" "my cat"
           (Mock.at_pictures (Mock.upload_limited 3)) _
           (mkPath false ["cat.JPG"]) "{session}"
           Mock.rate_limited Mock.rate_limited Mock.rate_limited
           (Mock.upload_limited 2) (Mock.upload_limited 1) Mock.quiet
           eq_refl eq_refl Hsuffix eq_refl eq_refl eq_refl eq_refl
           eq_refl eq_refl eq_refl).
Defined.

(** X16: a photo path that starts with the home of a user whose home
    directory cannot be determined makes [post_photo] raise the
    [RuntimeError] of [expanduser], after reporting it; no file is looked
    up and no remote call is made. *)
Theorem post_photo_unknown_home {L : Instagrapi} session_file home cwd
    photo_path caption (w : World) user rest :
  is_abs (Path photo_path) = false ->
  parts (Path photo_path) = String "~" user :: rest ->
  home user = None ->
  post_photo session_file home cwd photo_path caption w
    = (Raise (Exn RuntimeError "Could not determine home directory."),
       after w (remote w)
             [Error "Failed to post photo: Could not determine home directory."]).
Proof.
  intros Habs Hparts Hhome.
  unfold post_photo, try_except. unfold bind at 1, lift at 1, expanduser.
  by rewrite Habs, Hparts, Hhome.
Qed.

Lemma post_photo_unknown_home_witness :
  post_photo (L := Mock.mock) Mock.session_file Mock.home Mock.cwd
    "~bob/cat.jpg" "" (Mock.at_pictures Mock.uploading)
  = (Raise (Exn RuntimeError "Could not determine home directory."),
     after (Mock.at_pictures Mock.uploading) Mock.uploading
           [Error "Failed to post photo: Could not determine home directory."]).
Proof.
  apply (post_photo_unknown_home (L := Mock.mock) Mock.session_file
           Mock.home Mock.cwd "~bob/cat.jpg" ""
           (Mock.at_pictures Mock.uploading) "bob" ["cat.jpg"]);
    reflexivity.
Defined.

(** ** The client of the gateway *)

Section Gateway.

Context {L : Instagrapi}.
Variable session_file : path.

Lemma get_client_valid (w : World) text c r1 feed r2 :
  fs_exists session_file (fs w) = true ->
  fs_read session_file (fs w) = Return text ->
  json_loads text = Some c ->
  lib_account_info c (remote w) = (Return tt, r1) ->
  lib_get_timeline_feed c r1 = (Return feed, r2) ->
  get_client session_file w
    = (Return c, after w r2 (client_made session_file)).
Proof.
  intros Hex Hread Hjson Hprobe Hfeed.
  unfold get_client. unfold bind at 1.
  rewrite (is_authenticated_probe session_file w text c (Return tt) r1)
    by done.
  cbn [negb]. unfold bind at 1.
  rewrite (load_settings_run session_file _ text c) by done.
  rewrite after_after. cbn [remote after].
  unfold bind at 1, try_except. unfold bind at 1.
  rewrite (remote_call_run "get_timeline_feed" _ _ (Return feed) r2)
    by exact Hfeed.
  by rewrite after_after.
Qed.

Lemma client_first_use (w : World) text c r1 feed r2 :
  ic_client w = None ->
  fs_exists session_file (fs w) = true ->
  fs_read session_file (fs w) = Return text ->
  json_loads text = Some c ->
  lib_account_info c (remote w) = (Return tt, r1) ->
  lib_get_timeline_feed c r1 = (Return feed, r2) ->
  client session_file w
    = (Return c,
       mkWorld (fs w) r2 (trace w ++ client_made session_file)
               (sm_client w) (Some c)).
Proof.
  intros Hnone Hex Hread Hjson Hprobe Hfeed.
  unfold client. rewrite Hnone. unfold bind at 1.
  by rewrite (get_client_valid w text c r1 feed r2).
Qed.

End Gateway.

(** X17: the gateway makes its client once.  After a first successful
    use the [client] property returns the same client with no further
    call or read; a use that fails leaves the gateway without a client,
    so the next use starts over. *)
Theorem client_is_made_once {L : Instagrapi} session_file (w w1 : World) :
  (forall c,
      client session_file w = (Return c, w1) ->
      client session_file w1 = (Return c, w1) /\ ic_client w1 = Some c)
  /\ (forall e,
      ic_client w = None ->
      client session_file w = (Raise e, w1) ->
      ic_client w1 = None /\ get_client session_file w = (Raise e, w1)).
Proof.
  split.
  - intros c Hc. split; [by apply client_cached with w|].
    revert Hc. unfold client. destruct (ic_client w) as [c0|] eqn:Hic.
    + by intros [= <- <-].
    + unfold bind, set_ic_client, ret.
      destruct (get_client session_file w) as [[c1|e] w2]; [|done].
      by intros [= <- <-].
  - intros e Hnone. unfold client. rewrite Hnone.
    destruct (get_client_shape session_file w) as (r & s & new & Hgc).
    unfold bind at 1. rewrite Hgc. destruct r as [c|e']; [done|].
    by intros [= <- <-].
Qed.

Lemma client_is_made_once_witness :
  (exists w1,
      client (L := Mock.mock) Mock.session_file
        (Mock.start (Mock.old_home Mock.no_denial) Mock.served_once)
        = (Return "{old}", w1)
      /\ client Mock.session_file w1 = (Return "{old}", w1)
      /\ ic_client w1 = Some "{old}")
  /\ (exists w1,
      client (L := Mock.mock) Mock.session_file
        (Mock.start Mock.empty_home Mock.served_once)
        = (Raise not_authenticated, w1)
      /\ ic_client w1 = None).
Proof.
  split.
  - eexists. split; [reflexivity|].
    apply (proj1 (client_is_made_once (L := Mock.mock) Mock.session_file
                    (Mock.start (Mock.old_home Mock.no_denial)
                                Mock.served_once) _)).
    reflexivity.
  - eexists. split; [reflexivity|].
    apply (proj2 (client_is_made_once (L := Mock.mock) Mock.session_file
                    (Mock.start Mock.empty_home Mock.served_once) _)
             not_authenticated); reflexivity.
Defined.

(** X18: the first use of the [client] property with a usable session
    reads the session file twice and makes two remote calls, the account
    probe and the feed check, before any operation of the gateway is
    carried out; the files stay as they were. *)
Theorem client_first_use_checks_twice {L : Instagrapi} session_file
    (w : World) text k c r1 feed r2 :
  ic_client w = None ->
  stat (fs w) session_file = Some (File text k) ->
  denied (fs w) OpRead session_file = None ->
  json_loads text = Some c ->
  lib_account_info c (remote w) = (Return tt, r1) ->
  lib_get_timeline_feed c r1 = (Return feed, r2) ->
  exists w',
    client session_file w = (Return c, w')
    /\ trace w' = trace w ++ client_made session_file
    /\ remote_calls (client_made session_file)
       = ["account_info"; "get_timeline_feed"]
    /\ fs w' = fs w
    /\ remote w' = r2.
Proof.
  intros Hnone Hstat Hdenied Hjson Hprobe Hfeed.
  assert (Hex : fs_exists session_file (fs w) = true).
  { unfold fs_exists. by rewrite Hstat. }
  assert (Hread : fs_read session_file (fs w) = Return text).
  { unfold fs_read. by rewrite Hdenied, Hstat. }
  rewrite (client_first_use session_file w text c r1 feed r2) by done.
  eexists. split; [reflexivity|]. by cbn.
Qed.

Lemma client_first_use_checks_twice_witness :
  exists w',
    client (L := Mock.mock) Mock.session_file
      (Mock.start (Mock.old_home Mock.no_denial) Mock.served_once)
      = (Return "{old}", w')
    /\ trace w' = client_made Mock.session_file
    /\ remote_calls (client_made Mock.session_file)
       = ["account_info"; "get_timeline_feed"]
    /\ fs w' = Mock.old_home Mock.no_denial
    /\ remote w' = Mock.fed.
Proof.
  apply (client_first_use_checks_twice (L := Mock.mock) Mock.session_file
           (Mock.start (Mock.old_home Mock.no_denial) Mock.served_once)
           "{old}" mode_0o600 "{old}" Mock.probed ∅ Mock.fed);
    reflexivity.
Defined.

(** X19: on a gateway without a client and without a usable session,
    [get_account_stats] reports the session as expired, whether or not
    there ever was one, while [get_current_user] reports that the user is
    not authenticated; both raise [LoginRequired] and neither calls the
    profile capability. *)
Theorem account_operations_without_session {L : Instagrapi} session_file
    (w w1 : World) :
  ic_client w = None ->
  is_authenticated session_file w = (Return false, w1) ->
  get_account_stats session_file w
    = (Raise not_authenticated,
       after w1 (remote w1) [Error "Session expired. Please login again."])
  /\ get_current_user session_file w
    = (Raise not_authenticated,
       after w1 (remote w1)
             [Error "Failed to get current user info: Not authenticated. Please login first."]).
Proof.
  intros Hnone Hauth.
  assert (Hc : client session_file w = (Raise not_authenticated, w1)).
  { unfold client. rewrite Hnone. unfold bind at 1, get_client.
    unfold bind at 1. by rewrite Hauth. }
  split.
  - unfold get_account_stats, try_except. unfold bind at 1. by rewrite Hc.
  - unfold get_current_user, try_except. unfold bind at 1. by rewrite Hc.
Qed.

Lemma account_operations_without_session_witness :
  get_account_stats (L := Mock.mock) Mock.session_file
    (Mock.start Mock.empty_home Mock.serving)
    = (Raise not_authenticated,
       after (Mock.start Mock.empty_home Mock.serving) Mock.serving
             [Error "Session expired. Please login again."])
  /\ get_current_user (L := Mock.mock) Mock.session_file
       (Mock.start Mock.empty_home Mock.serving)
     = (Raise not_authenticated,
        after (Mock.start Mock.empty_home Mock.serving) Mock.serving
              [Error "Failed to get current user info: Not authenticated. Please login first."]).
Proof.
  apply (account_operations_without_session (L := Mock.mock)
           Mock.session_file (Mock.start Mock.empty_home Mock.serving)
           (Mock.start Mock.empty_home Mock.serving)); reflexivity.
Defined.

(** ** What a save leaves alone *)

Lemma fs_mkdir_p_keeps p f r f' q :
  fs_mkdir_p p f = (r, f') ->
  is_Some (stat f q) -> stat f' q = stat f q.
Proof.
  unfold fs_mkdir_p. destruct (denied f OpMkdir p); [by intros [= _ <-]|].
  destruct (mkdir_chain p (ancestors_and_self p) (nodes f)) as [m|e] eqn:Hm;
    [|by intros [= _ <-]].
  intros [= _ <-] Hq. destruct q as [|x q]; [done|].
  unfold stat in *. cbn [nodes]. by eapply mkdir_chain_keeps.
Qed.

Lemma fs_write_keeps p c f r f' q :
  fs_write p c f = (r, f') -> q <> p -> stat f' q = stat f q.
Proof.
  unfold fs_write. intros Hrun Hq.
  destruct (denied f OpWrite p); [by injection Hrun as _ <-|].
  destruct (stat f (parent p)) as [[|? ?]|]; try by injection Hrun as _ <-.
  destruct (stat f p) as [[|? ?]|]; injection Hrun as _ <-; try done;
    (destruct q as [|x q]; [done|]; unfold stat; cbn [nodes];
     by rewrite lookup_insert_ne).
Qed.

Lemma fs_chmod_keeps p k f r f' q :
  fs_chmod p k f = (r, f') -> q <> p -> stat f' q = stat f q.
Proof.
  unfold fs_chmod. intros Hrun Hq.
  destruct (denied f OpChmod p); [by injection Hrun as _ <-|].
  destruct (stat f p) as [[|? ?]|]; injection Hrun as _ <-; try done.
  destruct q as [|x q]; [done|]. unfold stat. cbn [nodes].
  by rewrite lookup_insert_ne.
Qed.

(** X20: whether it goes through or fails at any step, [_save_session]
    changes no path that exists other than the session file itself, and
    makes no remote call. *)
Theorem save_session_touches_only_session_file {L : Instagrapi}
    session_file (client : Client) (w : World) q :
  q <> session_file ->
  is_Some (stat (fs w) q) ->
  stat (fs (snd (_save_session session_file client w))) q = stat (fs w) q
  /\ remote (snd (_save_session session_file client w)) = remote w.
Proof.
  intros Hq Hsome.
  destruct (_save_session session_file client w) as [r w'] eqn:Hrun.
  cbn [snd]. revert Hrun.
  unfold _save_session, try_except, dump_settings.
  unfold bind at 1. unfold syscall at 1.
  destruct (fs_mkdir_p (parent session_file) (fs w)) as [r1 f1] eqn:Hmk.
  pose proof (fs_mkdir_p_keeps _ _ _ _ q Hmk Hsome) as H1.
  destruct r1 as [[]|e1]; [|cbn; by intros [= _ <-]].
  unfold bind at 1. unfold syscall at 1. cbn [fs].
  destruct (fs_write session_file (json_dumps client) f1) as [r2 f2] eqn:Hwr.
  pose proof (fs_write_keeps _ _ _ _ _ q Hwr Hq) as H2.
  destruct r2 as [[]|e2]; [|cbn; intros [= _ <-]; cbn; by rewrite H2].
  unfold bind at 1. unfold syscall at 1. cbn [fs].
  destruct (fs_chmod session_file mode_0o600 f2) as [r3 f3] eqn:Hch.
  pose proof (fs_chmod_keeps _ _ _ _ _ q Hch Hq) as H3.
  destruct r3 as [[]|e3]; cbn; intros [= _ <-]; cbn; by rewrite H3, H2.
Qed.

Lemma save_session_touches_only_session_file_witness :
  stat (fs (snd (_save_session (L := Mock.mock) Mock.session_file "{new}"
                   (Mock.at_pictures Mock.quiet))))
       ["home"; "ana"; "cat.gif"]
  = stat (fs (Mock.at_pictures Mock.quiet)) ["home"; "ana"; "cat.gif"]
  /\ remote (snd (_save_session (L := Mock.mock) Mock.session_file "{new}"
                    (Mock.at_pictures Mock.quiet)))
     = remote (Mock.at_pictures Mock.quiet).
Proof.
  apply (save_session_touches_only_session_file (L := Mock.mock)
           Mock.session_file "{new}" (Mock.at_pictures Mock.quiet)
           ["home"; "ana"; "cat.gif"]); [discriminate|].
  by eexists.
Defined.

(** ** The guard of the commands *)

(** X21: a command behind [requires_auth] is not run without a usable
    session: the refusal is printed and the command aborts.  With a
    usable session the statistics operation of a new gateway runs after
    three validations of the session: the account probe of the guard,
    then the account probe and the feed check of the gateway's client,
    and only then the profile call. *)
Theorem requires_auth_guards_stats {L : Instagrapi} session_file
    (w : World) :
  (forall A (func : M A) w1,
      is_authenticated session_file w = (Return false, w1) ->
      requires_auth session_file func w
        = (Raise click_Abort, after w1 (remote w1) [refused_by_guard]))
  /\ (forall text k c r1 r2 feed r3 u r4,
      ic_client w = None ->
      stat (fs w) session_file = Some (File text k) ->
      denied (fs w) OpRead session_file = None ->
      json_loads text = Some c ->
      lib_account_info c (remote w) = (Return tt, r1) ->
      lib_account_info c r1 = (Return tt, r2) ->
      lib_get_timeline_feed c r2 = (Return feed, r3) ->
      lib_user_info c (client_user_id c) r3 = (Return u, r4) ->
      exists w',
        requires_auth session_file (get_account_stats session_file) w
          = (Return (mkStats (user_follower_count u)
                             (user_following_count u)
                             (user_media_count u)), w')
        /\ trace w' = trace w ++ guarded_stats session_file
        /\ remote_calls (guarded_stats session_file)
           = ["account_info"; "account_info"; "get_timeline_feed";
              "user_info"]
        /\ fs w' = fs w).
Proof.
  split.
  - intros A func w1 Hauth. unfold requires_auth. unfold bind at 1.
    by rewrite Hauth.
  - intros text k c r1 r2 feed r3 u r4 Hnone Hstat Hdenied Hjson
           Hp1 Hp2 Hfeed Hinfo.
    assert (Hex : fs_exists session_file (fs w) = true).
    { unfold fs_exists. by rewrite Hstat. }
    assert (Hread : fs_read session_file (fs w) = Return text).
    { unfold fs_read. by rewrite Hdenied, Hstat. }
    unfold requires_auth. unfold bind at 1.
    rewrite (is_authenticated_probe session_file w text c (Return tt) r1)
      by done.
    cbn [negb].
    unfold get_account_stats, try_except. unfold bind at 1.
    rewrite (client_first_use session_file _ text c r2 feed r3) by done.
    unfold bind at 1.
    match goal with
    | |- context [client session_file ?w2] =>
        assert (Hc : client session_file w2 = (Return c, w2))
          by (unfold client; reflexivity)
    end.
    rewrite Hc. unfold bind at 1.
    rewrite (remote_call_run "user_info" _ _ (Return u) r4) by exact Hinfo.
    eexists. split; [reflexivity|]. cbn.
    split; [by rewrite <- !app_assoc|done].
Qed.

Lemma requires_auth_guards_stats_witness :
  requires_auth (L := Mock.mock) Mock.session_file
    (get_account_stats Mock.session_file)
    (Mock.start Mock.empty_home Mock.serving)
    = (Raise click_Abort,
       after (Mock.start Mock.empty_home Mock.serving) Mock.serving
             [refused_by_guard])
  /\ exists w',
       requires_auth (L := Mock.mock) Mock.session_file
         (get_account_stats Mock.session_file)
         (Mock.start (Mock.old_home Mock.no_denial) Mock.serving)
         = (Return (mkStats 10 20 3), w')
       /\ trace w' = guarded_stats Mock.session_file
       /\ remote_calls (guarded_stats Mock.session_file)
          = ["account_info"; "account_info"; "get_timeline_feed";
             "user_info"]
       /\ fs w' = Mock.old_home Mock.no_denial.
Proof.
  split.
  - apply (proj1 (requires_auth_guards_stats (L := Mock.mock)
                    Mock.session_file
                    (Mock.start Mock.empty_home Mock.serving))).
    reflexivity.
  - apply (proj2 (requires_auth_guards_stats (L := Mock.mock)
                    Mock.session_file
                    (Mock.start (Mock.old_home Mock.no_denial)
                                Mock.serving))
             "{old}" mode_0o600 "{old}" Mock.served_once Mock.probed ∅
             Mock.fed Mock.ana Mock.quiet); reflexivity.
Defined.

(** ** The location of the session file *)

(** X22: with the environment variable unset the session file is
    [.instagram_session.json] in the home directory of the user, and the
    path cannot be made when the home directory is unknown; a value of
    the variable that is an absolute path is taken as it is. *)
Theorem session_file_location (home : string -> option string) :
  (forall h,
      home "" = Some h ->
      get_session_file_path home None
        = Return (mkPath (is_abs (Path h))
                         (parts (Path h) ++ [".instagram_session.json"])))
  /\ (home "" = None ->
      get_session_file_path home None
        = Raise (Exn RuntimeError "Could not determine home directory."))
  /\ (forall s,
      is_abs (Path s) = true ->
      get_session_file_path home (Some s) = Return (Path s)).
Proof.
  assert (Hdefault : Path "~/.instagram_session.json"
                     = mkPath false ["~"; ".instagram_session.json"])
    by (vm_compute; reflexivity).
  split; [|split].
  - intros h Hh. unfold get_session_file_path, expanduser.
    cbn [default from_option id]. rewrite Hdefault. cbn [is_abs parts].
    by rewrite Hh.
  - intros Hh. unfold get_session_file_path, expanduser.
    cbn [default from_option id]. rewrite Hdefault. cbn [is_abs parts].
    by rewrite Hh.
  - intros s Habs. unfold get_session_file_path, expanduser.
    cbn [default from_option id]. by rewrite Habs.
Qed.

Lemma session_file_location_witness :
  get_session_file_path Mock.home None
    = Return (mkPath true ["home"; "ana"; ".instagram_session.json"])
  /\ get_session_file_path (fun _ => None) None
     = Raise (Exn RuntimeError "Could not determine home directory.")
  /\ get_session_file_path Mock.home (Some "/tmp/s.json")
     = Return (mkPath true ["tmp"; "s.json"]).
Proof.
  split; [|split].
  - apply (proj1 (session_file_location Mock.home) "/home/ana").
    reflexivity.
  - apply (proj1 (proj2 (session_file_location (fun _ => None)))).
    reflexivity.
  - apply (proj2 (proj2 (session_file_location Mock.home)) "/tmp/s.json").
    reflexivity.
Defined.

(** ** The commands *)

(** X23: the [login] command turns a refused login into an abort: with
    no session file, the exception of the library is reported twice, by
    [SessionManager.login] and by the command, and [click.Abort] is
    raised in its place; nothing is written. *)
Theorem cli_login_aborts {L : Instagrapi} session_file
    username password (w : World) e c s :
  fs_exists session_file (fs w) = false ->
  lib_login username password Client_new (remote w) = (Raise e, c, s) ->
  exists line,
    cli_login session_file username password w
      = (Raise click_Abort,
         after w s [Info "Logging in to Instagram..."; RemoteCall "login";
                    Error line;
                    Error ("Login failed: " +:+ exn_msg e)])
    /\ (exn_cls e = BadPassword ->
        line = "Invalid password. Please check your credentials.")
    /\ (exn_cls e <> BadPassword ->
        exn_cls e <> TwoFactorRequired ->
        exn_cls e <> ChallengeRequired ->
        line = "Login failed: " +:+ exn_msg e).
Proof.
  intros Hex Hlogin.
  destruct (fresh_login_fails session_file username password Client_new w
              e c s Hlogin) as (line & Hrun & Hbad & _ & _ & Hother).
  exists line. split; [|by split].
  unfold cli_login, try_except. unfold bind at 1, login.
  unfold bind at 1, path_exists. rewrite Hex, Hrun.
  unfold bind, error_message, emit, raise, after; cbn.
  by rewrite <- !app_assoc.
Qed.

Lemma cli_login_aborts_witness :
  cli_login (L := Mock.mock) Mock.session_file "ana" "wrong"
    (Mock.start Mock.empty_home Mock.refusing)
  = (Raise click_Abort,
     after (Mock.start Mock.empty_home Mock.refusing) Mock.quiet
           [Info "Logging in to Instagram..."; RemoteCall "login";
            Error "Invalid password. Please check your credentials.";
            Error "Login failed: bad_password"]).
Proof.
  destruct (cli_login_aborts (L := Mock.mock) Mock.session_file
              "ana" "wrong" (Mock.start Mock.empty_home Mock.refusing)
              Mock.bad_password "{}" Mock.quiet eq_refl eq_refl)
    as (line & Hrun & Hbad & _).
  rewrite Hrun. by rewrite (Hbad eq_refl).
Defined.

(** X24: the [logout] command returns normally when there is no session
    file; when the removal is refused, the refusal is reported twice and
    the command aborts, the session file staying in place. *)
Theorem cli_logout_cases {L : Instagrapi} session_file (w : World) :
  (fs_exists session_file (fs w) = false ->
   cli_logout session_file w
     = (Return tt, after w (remote w) [Info "No active session found"]))
  /\ (forall e,
      fs_exists session_file (fs w) = true ->
      denied (fs w) OpUnlink session_file = Some e ->
      cli_logout session_file w
        = (Raise click_Abort,
           after w (remote w)
                 [Syscall OpUnlink session_file;
                  Error ("Failed to logout: " +:+ exn_msg e);
                  Error ("Logout failed: " +:+ exn_msg e)])).
Proof.
  split.
  - intros Hex. unfold cli_logout, try_except, logout, try_except.
    unfold bind at 1, path_exists. by rewrite Hex.
  - intros e Hex Hdenied.
    unfold cli_logout, try_except, logout, try_except.
    unfold bind at 1, path_exists. rewrite Hex.
    unfold bind at 1, syscall at 1, fs_unlink. rewrite Hdenied.
    unfold bind, error_message, emit, raise, after; cbn.
    by rewrite <- !app_assoc.
Qed.

Lemma cli_logout_cases_witness :
  cli_logout (L := Mock.mock) Mock.session_file
    (Mock.start Mock.empty_home Mock.quiet)
    = (Return tt,
       after (Mock.start Mock.empty_home Mock.quiet) Mock.quiet
             [Info "No active session found"])
  /\ cli_logout (L := Mock.mock) Mock.session_file
       (Mock.start (Mock.old_home Mock.no_unlink) Mock.quiet)
     = (Raise click_Abort,
        after (Mock.start (Mock.old_home Mock.no_unlink) Mock.quiet)
              Mock.quiet
              [Syscall OpUnlink Mock.session_file;
               Error "Failed to logout: [Errno 16] Device or resource busy";
               Error "Logout failed: [Errno 16] Device or resource busy"]).
Proof.
  split.
  - apply (proj1 (cli_logout_cases (L := Mock.mock) Mock.session_file
                    (Mock.start Mock.empty_home Mock.quiet))).
    reflexivity.
  - apply (proj2 (cli_logout_cases (L := Mock.mock) Mock.session_file
                    (Mock.start (Mock.old_home Mock.no_unlink) Mock.quiet))
             Mock.busy); reflexivity.
Defined.

(** ** Login, then the check *)

(** X25: the session that a first login saves is the one the next check
    uses: after a login with no session file that is accepted and saved,
    [is_authenticated] loads the client that [login] returned and answers
    by the account probe on that client. *)
Theorem login_then_is_authenticated {L : Instagrapi} session_file
    username password (w : World) c s r s' :
  fs_exists session_file (fs w) = false ->
  lib_login username password Client_new (remote w) = (Return tt, c, s) ->
  save_unhindered session_file (fs w) = true ->
  denied (fs w) OpRead session_file = None ->
  json_loads (json_dumps c) = Some c ->
  lib_account_info c s = (r, s') ->
  exists w',
    login session_file username password w = (Return c, w')
    /\ is_authenticated session_file w'
       = (Return (if r is Return _ then true else false),
          after w' s' [Syscall OpRead session_file;
                       RemoteCall "account_info"]).
Proof.
  intros Hex Hlogin Hsave Hread Hjson Hprobe.
  destruct (fresh_login_saves session_file username password Client_new w
              c s Hlogin Hsave) as (f' & Hrun & Hfile & Hdenied).
  unfold login. unfold bind at 1, path_exists. rewrite Hex, Hrun.
  eexists. split; [reflexivity|].
  apply is_authenticated_probe with (json_dumps c) c; cbn [fs remote].
  - unfold fs_exists. by rewrite Hfile.
  - unfold fs_read. by rewrite Hdenied, Hread, Hfile.
  - done.
  - done.
Qed.

Lemma login_then_is_authenticated_witness :
  exists w',
    login (L := Mock.mock) Mock.session_file "ana" "secret"
      (Mock.start Mock.empty_home Mock.login_then_probe)
      = (Return "{session of ana}", w')
    /\ is_authenticated Mock.session_file w'
       = (Return true,
          after w' Mock.quiet [Syscall OpRead Mock.session_file;
                               RemoteCall "account_info"]).
Proof.
  apply (login_then_is_authenticated (L := Mock.mock) Mock.session_file
           "ana" "secret" (Mock.start Mock.empty_home Mock.login_then_probe)
           "{session of ana}" (Mock.mkRemote [] [Return tt] [] [] [] [] [])
           (Return tt) Mock.quiet); reflexivity.
Defined.
